(** * Patient payment ledger analysis: a model of [app.py]

    The development embeds the data handling of [app.py]:
    - [main]'s extraction of the person under control (regex [-(.*?)$]),
    - [find_missing_dates],
    - [process_data]: the schema check, the per-patient total, the gap
      report and the per-modality unusual-payment / cross-file report.

    Conventions of the model.
    - A Python [str] is a [string] whose characters are code points below
      256, one [ascii] per code point.  Column labels are only ever compared
      for equality.
    - A pandas [Timestamp] is the integer number of nanoseconds since the
      epoch ([Z]); [None] stands for [NaT]/[NaN].
    - In the report, an amount is an exact number, held as an integer count
      of the ledger's smallest unit.  The patient total is also modelled in
      the arithmetic of the numeric column ([patient_total]), whatever the
      dtype and its sum are; binary64 is one instance.
    - The text-to-number reader of [pd.to_numeric] and the compilation of a
      regular expression by [Series.str.contains] belong to pandas and
      Python; they are section variables. *)

From Stdlib Require Import ZArith List Bool Lia Ascii String.
From Stdlib Require Import Sorting.Permutation Sorting.Sorted.
From Stdlib Require Import Floats.
Import ListNotations.

Local Open Scope string_scope.
Local Open Scope Z_scope.

(** ** Characters and strings *)

Module Str.

Definition code (c : ascii) : nat := nat_of_ascii c.

Definition is_newline (c : ascii) : bool := Nat.eqb (code c) 10.
Definition is_hyphen (c : ascii) : bool := Nat.eqb (code c) 45.

(** [str.isspace] on the code points below 256: TAB..CR, FS..US, space,
    NEL and NBSP. *)
Definition isspace (c : ascii) : bool :=
  let n := code c in
  ((Nat.leb 9 n && Nat.leb n 13) || (Nat.leb 28 n && Nat.leb n 32)
   || Nat.eqb n 133 || Nat.eqb n 160)%bool.

(** ASCII lower-casing; on code points below 256 it decides the
    case-insensitive comparison with an ASCII pattern character. *)
Definition lower (c : ascii) : ascii :=
  let n := code c in
  if (Nat.leb 65 n && Nat.leb n 90)%bool then ascii_of_nat (n + 32) else c.

Definition eqb_ci (a b : ascii) : bool := Ascii.eqb (lower a) (lower b).

Fixpoint lstrip (s : string) : string :=
  match s with
  | EmptyString => EmptyString
  | String c rest => if isspace c then lstrip rest else s
  end.

Fixpoint rev (s : string) : string :=
  match s with
  | EmptyString => EmptyString
  | String c rest => rev rest ++ String c EmptyString
  end.

Definition rstrip (s : string) : string := rev (lstrip (rev s)).

(** [str.strip()] *)
Definition strip (s : string) : string := rstrip (lstrip s).

Fixpoint has (p : ascii -> bool) (s : string) : bool :=
  match s with
  | EmptyString => false
  | String c rest => (p c || has p rest)%bool
  end.

(** The text after the first character satisfying [p]. *)
Fixpoint after_first (p : ascii -> bool) (s : string) : string :=
  match s with
  | EmptyString => EmptyString
  | String c rest => if p c then rest else after_first p rest
  end.

(** The text after the last character satisfying [p] (the whole text
    when there is none). *)
Fixpoint after_last (p : ascii -> bool) (s : string) : string :=
  match s with
  | EmptyString => EmptyString
  | String c rest =>
      if has p rest then after_last p rest
      else if p c then rest else s
  end.

(** [x in s] for Python strings. *)
Fixpoint is_substring (x s : string) : bool :=
  match s with
  | EmptyString => prefix x s
  | String _ rest => (prefix x s || is_substring x rest)%bool
  end.

Fixpoint map (f : ascii -> ascii) (s : string) : string :=
  match s with
  | EmptyString => EmptyString
  | String c rest => String (f c) (map f rest)
  end.

End Str.

(** ** The two fixed regular expressions of the program *)

Module Re.

(** [(.*?)$] tried at the head of [s]: the lazy group grows one character
    at a time until [$] holds.  [$] holds at the end of the text and just
    before a newline that ends the text; [.] takes any character but a
    newline. *)
Fixpoint lazy_group_to_end (s : string) : option string :=
  match s with
  | EmptyString => Some EmptyString
  | String c rest =>
      if Str.is_newline c then
        match rest with
        | EmptyString => Some EmptyString
        | _ => None
        end
      else option_map (String c) (lazy_group_to_end rest)
  end.

(** [re.search(r'-(.*?)$', s)], returning [group(1)]: the leftmost hyphen
    from which the rest of the pattern matches. *)
Fixpoint search_hyphen_group (s : string) : option string :=
  match s with
  | EmptyString => None
  | String c rest =>
      if Str.is_hyphen c then
        match lazy_group_to_end rest with
        | Some g => Some g
        | None => search_hyphen_group rest
        end
      else search_hyphen_group rest
  end.

(** One element of a pattern without repetition. *)
Inductive atom : Type :=
| Lit (c : ascii)   (* a literal character *)
| Dot.              (* [.] : any character except a newline *)

Definition atom_matches (ignore_case : bool) (a : atom) (c : ascii) : bool :=
  match a with
  | Lit x => if ignore_case then Str.eqb_ci x c else Ascii.eqb x c
  | Dot => negb (Str.is_newline c)
  end.

Fixpoint match_here (ic : bool) (p : list atom) (s : string) : bool :=
  match p, s with
  | [], _ => true
  | _ :: _, EmptyString => false
  | a :: p', String c rest => (atom_matches ic a c && match_here ic p' rest)%bool
  end.

(** [re.search] for a pattern that is a plain sequence of atoms. *)
Fixpoint search (ic : bool) (p : list atom) (s : string) : bool :=
  match s with
  | EmptyString => match_here ic p s
  | String _ rest => (match_here ic p s || search ic p rest)%bool
  end.

(** Compilation of a pattern text whose only metacharacter is [.]. *)
Fixpoint compile (pat : string) : list atom :=
  match pat with
  | EmptyString => []
  | String c rest =>
      (if Nat.eqb (Str.code c) 46 then Dot else Lit c) :: compile rest
  end.

End Re.

(** The category of [find_missing_dates]. *)
Definition category : string := "INGRESO NO QUIR.".

(** [Series.str.contains('INGRESO NO QUIR.', case=False, na=False)] on one
    cell: [contains] reads its argument as a regular expression. *)
Definition contains_category (product : string) : bool :=
  Re.search true (Re.compile category) product.

(** What the docstring describes: the category as a literal substring,
    letter case ignored. *)
Definition contains_literal_ci (x s : string) : bool :=
  Str.is_substring (Str.map Str.lower x) (Str.map Str.lower s).

(** ** Generic list helpers (pandas [unique], [sort_values]) *)

Section ListOps.
Context {A : Type}.
Variable eqb : A -> A -> bool.

Fixpoint mem (x : A) (l : list A) : bool :=
  match l with
  | [] => false
  | y :: l' => (eqb x y || mem x l')%bool
  end.

(** [unique]: distinct values in order of first appearance. *)
Fixpoint unique (l : list A) : list A :=
  match l with
  | [] => []
  | x :: l' => x :: filter (fun y => negb (eqb x y)) (unique l')
  end.

Variable leb : A -> A -> bool.

Fixpoint insert_by (x : A) (l : list A) : list A :=
  match l with
  | [] => [x]
  | y :: l' => if leb x y then x :: l else y :: insert_by x l'
  end.

(** A stable sort: rows with equal keys keep their relative order. *)
Definition sort_by (l : list A) : list A := fold_right insert_by [] l.
End ListOps.

(** The sum of exact amounts.  [Series.sum] adds in the arithmetic of the
    column; the patient total in that arithmetic is [patient_total]. *)
Definition sum_Z (l : list Z) : Z := fold_right Z.add 0 l.

(** ** Timestamps *)

Module Time.

(** Nanoseconds in a day: the step of [freq='D']. *)
Definition DAY : Z := 86400000000000.

(** The calendar day a timestamp falls on, counted from 1970-01-01. *)
Definition day_of (t : Z) : Z := t / DAY.

Definition midnight (d : Z) : Z := d * DAY.

(** Proleptic Gregorian date [(year, month, day)] of a day number. *)
Definition civil_from_days (days : Z) : Z * Z * Z :=
  let z := days + 719468 in
  let era := z / 146097 in
  let doe := z - era * 146097 in
  let yoe := (doe - doe / 1460 + doe / 36524 - doe / 146096) / 365 in
  let y := yoe + era * 400 in
  let doy := doe - (365 * yoe + yoe / 4 - yoe / 100) in
  let mp := (5 * doy + 2) / 153 in
  let d := doy - (153 * mp + 2) / 5 + 1 in
  let m := if mp <? 10 then mp + 3 else mp - 9 in
  (if m <=? 2 then y + 1 else y, m, d).

Definition digit (n : Z) : ascii := ascii_of_nat (48 + Z.to_nat (n mod 10)).

(** A number below 100 zero-padded to two digits ([%d], [%m], [%y]). *)
Definition two_digits (n : Z) : string :=
  String (digit (n / 10)) (String (digit n) EmptyString).

(** [strftime('%d-%m-%y')] of a calendar day. *)
Definition format_day (days : Z) : string :=
  let '(y, m, d) := civil_from_days days in
  two_digits d ++ "-" ++ two_digits m ++ "-" ++ two_digits (y mod 100).

(** [Timestamp.strftime('%d-%m-%y')] *)
Definition strftime (t : Z) : string := format_day (day_of t).

(** [pd.date_range(start, end, freq='D')]: [start], [start + 1 day], ...
    up to and including the last one not after [end]. *)
Definition date_range (start stop : Z) : list Z :=
  if stop <? start then []
  else List.map (fun k => start + Z.of_nat k * DAY)
                (seq 0 (S (Z.to_nat ((stop - start) / DAY)))).

(** [Index.min()] and [Index.max()] of a non-empty index. *)
Definition index_min (l : list Z) : Z :=
  match l with
  | [] => 0
  | x :: l' => fold_left Z.min l' x
  end.

Definition index_max (l : list Z) : Z :=
  match l with
  | [] => 0
  | x :: l' => fold_left Z.max l' x
  end.

End Time.

(** ** Rows and data frames *)

(** A cell of the settled-amount column as [read_excel] delivers it. *)
Inductive amount_cell : Type :=
| ANull                 (* an empty cell, NaN *)
| ANum (a : Z)          (* a numeric cell *)
| AText (s : string).   (* a text cell *)

Record Row : Type := mkRow {
  liquidacion : option string;   (* 'Liquidación' *)
  paciente    : option string;   (* 'Paciente' *)
  f_actividad : option Z;        (* 'F. Actividad': a Timestamp or NaT *)
  producto    : option string;   (* 'Producto' *)
  i_liquidado : amount_cell;     (* 'I. Liquidado' *)
  source_file : string           (* 'source_file' *)
}.

Record DataFrame : Type := mkDataFrame {
  columns : list string;
  rows    : list Row
}.

(** [df.empty]: some axis has length zero. *)
Definition empty (df : DataFrame) : bool :=
  match columns df, rows df with
  | [], _ | _, [] => true
  | _, _ => false
  end.

(** [str(cell)] / [astype(str)] of a text cell; a missing cell reads "nan". *)
Definition astype_str (c : option string) : string :=
  match c with
  | Some s => s
  | None => "nan"
  end.

(** [==] on cells: a missing value equals nothing, itself included. *)
Definition cell_eqb (a b : option string) : bool :=
  match a, b with
  | Some x, Some y => String.eqb x y
  | _, _ => false
  end.

(** Identity of cells as [unique] sees it: missing values are one value. *)
Definition cell_same (a b : option string) : bool :=
  match a, b with
  | Some x, Some y => String.eqb x y
  | None, None => true
  | _, _ => false
  end.

Definition date_same (a b : option Z) : bool :=
  match a, b with
  | Some x, Some y => x =? y
  | None, None => true
  | _, _ => false
  end.

(** [pd.notna] filter on a date index. *)
Fixpoint dropna_dates (l : list (option Z)) : list Z :=
  match l with
  | [] => []
  | Some t :: l' => t :: dropna_dates l'
  | None :: l' => dropna_dates l'
  end.

(** Ascending order of dates with [NaT] last ([sort_values]). *)
Definition date_leb (a b : option Z) : bool :=
  match a, b with
  | Some x, Some y => x <=? y
  | Some _, None => true
  | None, Some _ => false
  | None, None => true
  end.

(** ** [find_missing_dates] *)

Definition is_ingreso_no_quir (r : Row) : bool :=
  contains_category (astype_str (producto r)).

(** The present dates: unique values of the column, [NaT] removed. *)
Definition present_dates (df_patient : list Row) : list Z :=
  dropna_dates (unique date_same
                  (map f_actividad (filter is_ingreso_no_quir df_patient))).

(** The timestamps whose formatted form is returned. *)
Definition missing_timestamps (df_patient : list Row) : list Z :=
  let ingreso_no_quir_df := filter is_ingreso_no_quir df_patient in
  match ingreso_no_quir_df with
  | [] => []
  | _ :: _ =>
      let present := present_dates df_patient in
      if (List.length present <? 2)%nat then []
      else
        let start_date := Time.index_min present in
        let end_date := Time.index_max present in
        filter (fun date => negb (mem Z.eqb date present))
               (Time.date_range start_date end_date)
  end.

Definition find_missing_dates (df_patient : list Row) : list string :=
  map Time.strftime (missing_timestamps df_patient).

(** ** The calendar and the text DD-MM-YY, as the specification means them

    These definitions follow the Gregorian calendar and the written form of
    a date, not the program: the dates the program formats are measured
    against them. *)

Module Calendar.

Definition is_leap (y : Z) : bool :=
  ((y mod 4 =? 0) && (negb (y mod 100 =? 0) || (y mod 400 =? 0)))%bool.

Definition days_in_month (y m : Z) : Z :=
  if m =? 2 then (if is_leap y then 29 else 28)
  else if ((m =? 4) || (m =? 6) || (m =? 9) || (m =? 11))%bool then 30
  else 31.

(** The date of the day after [(year, month, day)]. *)
Definition next_day (date : Z * Z * Z) : Z * Z * Z :=
  let '(y, m, d) := date in
  if d <? days_in_month y m then (y, m, d + 1)
  else if m <? 12 then (y, m + 1, 1)
  else (y + 1, 1, 1).

Definition digit_value (c : ascii) : option Z :=
  let n := Str.code c in
  if (Nat.leb 48 n && Nat.leb n 57)%bool then Some (Z.of_nat (n - 48))
  else None.

Definition read_two_digits (a b : ascii) : option Z :=
  match digit_value a, digit_value b with
  | Some x, Some y => Some (10 * x + y)
  | _, _ => None
  end.

(** A text of the form DD-MM-YY read as (day, month, year of the
    century). *)
Definition read_dd_mm_yy (s : string) : option (Z * Z * Z) :=
  match s with
  | String d1 (String d2 (String h1 (String m1 (String m2 (String h2
      (String y1 (String y2 EmptyString))))))) =>
      if (Str.is_hyphen h1 && Str.is_hyphen h2)%bool then
        match read_two_digits d1 d2, read_two_digits m1 m2,
              read_two_digits y1 y2 with
        | Some dd, Some mm, Some yy => Some (dd, mm, yy)
        | _, _, _ => None
        end
      else None
  | _ => None
  end.

End Calendar.

(** ** [main]: the person under control *)

Definition col_liquidacion : string := "Liquidación".
Definition col_paciente : string := "Paciente".
Definition col_f_actividad : string := "F. Actividad".
Definition col_producto : string := "Producto".
Definition col_i_liquidado : string := "I. Liquidado".
Definition col_source_file : string := "source_file".

(** [re.search(r'-(.*?)$', s)] followed by [match.group(1).strip()];
    [None] when the search fails. *)
Definition person_of_identifier (s : string) : option string :=
  option_map Str.strip (Re.search_hyphen_group s).

Definition person_under_control (combined_df : DataFrame) : option string :=
  if mem String.eqb col_liquidacion (columns combined_df) then
    match rows combined_df with
    | [] => None
    | first :: _ => person_of_identifier (astype_str (liquidacion first))
    end
  else None.

(** ** [process_data] *)

Inductive reason : Type :=
| unusual_payment   (* "(unusual payment)" *)
| multi_source.     (* "(from multiple files)" *)

Record ModalityReport : Type := mkModalityReport {
  modality         : option string;
  weird_dates      : list (Z * option Z * reason);
  days_count       : nat;
  dates_with_money : list (string * Z);
  total_money_modality : Z
}.

Record PatientReport : Type := mkPatientReport {
  patient             : option string;
  total_money_patient : Z;
  missing_days        : list string;
  modalities          : list ModalityReport
}.

Inductive outcome : Type :=
| EmptySheetWarning                           (* line 42 *)
| MissingColumnsError (missing : list string) (* line 48 *)
| PatternError                                (* [re.error] on line 52 *)
| NoDataWarning                               (* line 55 *)
| Rendered (reports : list PatientReport)     (* the loop ran to its end *)
| Crashed (reports : list PatientReport).     (* an exception ended the loop *)

Definition required_columns : list string :=
  [col_liquidacion; col_paciente; col_f_actividad; col_producto;
   col_i_liquidado; col_source_file].

(** [set(required_columns) - set(df.columns)]; the order in which a Python
    set lists its members is not modelled. *)
Definition missing_columns (df : DataFrame) : list string :=
  filter (fun col => negb (mem String.eqb col (columns df))) required_columns.

(** The numeric value a kept row contributes; [sum] skips missing values. *)
Definition amount_of (r : Row) : Z :=
  match i_liquidado r with
  | ANum a => a
  | _ => 0
  end.

Definition set_amount (r : Row) (a : option Z) : Row :=
  mkRow (liquidacion r) (paciente r) (f_actividad r) (producto r)
        (match a with Some v => ANum v | None => ANull end)
        (source_file r).

(** [dropna(subset=['I. Liquidado'])] *)
Definition notna_amount (r : Row) : bool :=
  match i_liquidado r with
  | ANull => false
  | _ => true
  end.

Definition dropna (l : list Row) : list Row := filter notna_amount l.

(** [sort_values(by='F. Actividad')], as the insertion sort that numpy
    runs on at most sixteen rows; on more rows, rows of equal date need not
    keep the order they came in. *)
Definition sort_values (l : list Row) : list Row :=
  sort_by (fun a b => date_leb (f_actividad a) (f_actividad b)) l.

(** *** One modality (lines 91-139) *)

Definition on_date (d : Z) (r : Row) : bool := date_same (f_actividad r) (Some d).

(** Group keys of [groupby('F. Actividad')]: distinct non-null dates,
    ascending. *)
Definition group_keys (modality_data : list Row) : list Z :=
  sort_by Z.leb (unique Z.eqb (dropna_dates (map f_actividad modality_data))).

(** [groupby('F. Actividad')['I. Liquidado'].sum()] *)
Definition money_per_day (modality_data : list Row) : list (Z * Z) :=
  map (fun d => (d, sum_Z (map amount_of (filter (on_date d) modality_data))))
      (group_keys modality_data).

(** [Series.value_counts()]: each distinct value with its number of
    occurrences, most frequent first, equally frequent values in order of
    first appearance. *)
Definition value_counts (values : list Z) : list (Z * nat) :=
  sort_by (fun a b => Nat.leb (snd b) (snd a))
          (map (fun v => (v, count_occ Z.eq_dec values v)) (unique Z.eqb values)).

(** [Series.idxmax()]: the label of the first maximum. *)
Definition idxmax (counts : list (Z * nat)) : option Z :=
  match counts with
  | [] => None
  | first :: rest =>
      Some (fst (fold_left
                   (fun best x => if (snd best <? snd x)%nat then x else best)
                   rest first))
  end.

Definition most_common_value (per_day : list (Z * Z)) : option Z :=
  match per_day with
  | [] => None
  | _ :: _ => idxmax (value_counts (map snd per_day))
  end.

(** [money_per_day[money_per_day != most_common_value]] *)
Definition weird_dates_payments (per_day : list (Z * Z)) : list (Z * Z) :=
  match most_common_value per_day with
  | None => []
  | Some m => filter (fun dv => negb (snd dv =? m)) per_day
  end.

(** [groupby('F. Actividad')['source_file'].nunique()] *)
Definition cross_file_dates_group (modality_data : list Row) : list (Z * nat) :=
  map (fun d =>
         (d, List.length (unique String.eqb
                            (map source_file (filter (on_date d) modality_data)))))
      (group_keys modality_data).

Definition cross_file_dates (modality_data : list Row) : list (Z * nat) :=
  filter (fun dn => (1 <? snd dn)%nat) (cross_file_dates_group modality_data).

(** [Index.union] *)
Definition index_union (a b : list Z) : list Z :=
  a ++ filter (fun x => negb (mem Z.eqb x a)) (unique Z.eqb b).

(** [Series.get(key, default)] *)
Fixpoint series_get {V : Type} (s : list (Z * V)) (key : Z) : option V :=
  match s with
  | [] => None
  | (k, v) :: s' => if k =? key then Some v else series_get s' key
  end.

Definition all_weird_dates_dt (modality_data : list Row) : list Z :=
  sort_by Z.leb
    (index_union (map fst (weird_dates_payments (money_per_day modality_data)))
                 (map fst (cross_file_dates modality_data))).

(** The lines written under "Unusual Payments and Cross-File Dates": the
    date, the day's money and the reason shown. *)
Definition detect_anomalous_payments (modality_data : list Row)
  : list (Z * option Z * reason) :=
  map (fun date_dt =>
         let money := series_get (money_per_day modality_data) date_dt in
         let source_files_count :=
           match series_get (cross_file_dates modality_data) date_dt with
           | Some n => n
           | None => 0%nat
           end in
         (date_dt, money,
          if (1 <? source_files_count)%nat then multi_source else unusual_payment))
      (all_weird_dates_dt modality_data).

Definition modality_report (patient_data : list Row) (m : option string)
  : ModalityReport :=
  let modality_data :=
    sort_values (filter (fun r => cell_eqb (producto r) m) patient_data) in
  mkModalityReport m
    (detect_anomalous_payments modality_data)
    (List.length (group_keys modality_data))
    (map (fun dm => (Time.strftime (fst dm), snd dm)) (money_per_day modality_data))
    (sum_Z (map amount_of modality_data)).

Section Pandas.

(** [pd.to_numeric] on one text: [None] when the text is not a number
    ([ValueError]), [Some None] when it reads as NaN, [Some (Some a)] for
    the number [a]. *)
Variable parse_number : string -> option (option Z).

(** [re.compile(pattern)], as [Series.str.contains(pattern)] calls it
    before any row is tested: [None] when the pattern is no regular
    expression ([re.error]), otherwise the test that [search] succeeds on a
    text. *)
Variable re_compile : string -> option (string -> bool).

(** [.str.replace(',', '.')] *)
Definition replace_comma (s : string) : string :=
  Str.map (fun c => if Nat.eqb (Str.code c) 44 then ascii_of_nat 46 else c) s.

(** [astype(str)], [replace] and the numeric reading of one cell.  A
    numeric cell prints as a number that reads back as itself; an empty
    cell prints as the text "nan", and it is the reader that says what that
    text is. *)
Definition to_numeric_cell (c : amount_cell) : option (option Z) :=
  match c with
  | ANull => parse_number (replace_comma "nan")
  | ANum a => Some (Some a)
  | AText s => parse_number (replace_comma s)
  end.

Fixpoint to_numeric_all (cells : list amount_cell) : option (list (option Z)) :=
  match cells with
  | [] => Some []
  | c :: cells' =>
      match to_numeric_cell c, to_numeric_all cells' with
      | Some a, Some l => Some (a :: l)
      | _, _ => None
      end
  end.

Fixpoint assign_amounts (l : list Row) (amounts : list (option Z)) : list Row :=
  match l, amounts with
  | r :: l', a :: amounts' => set_amount r a :: assign_amounts l' amounts'
  | _, _ => []
  end.

(** Lines 69-73.  With [errors='ignore'], [to_numeric] hands the text
    column back unchanged as soon as one cell is not a number: no cell is
    then missing, [dropna] keeps every row, the column's [sum] is the
    concatenated text, and formatting it with [:,.2f] on line 77 raises
    [ValueError].  [None] stands for that exception. *)
Definition numeric_patient_data (patient_rows : list Row) : option (list Row) :=
  match to_numeric_all (map i_liquidado patient_rows) with
  | None => None
  | Some amounts => Some (sort_values (dropna (assign_amounts patient_rows amounts)))
  end.

(** [patient_data['I. Liquidado'].sum()] as line 77 prints it. *)
Definition compute_total (patient_rows : list Row) : option Z :=
  option_map (fun data => sum_Z (map amount_of data))
             (numeric_patient_data patient_rows).

(** The missing 'INGRESO NO QUIR' days of line 80. *)
Definition patient_missing_days (patient_rows : list Row) : option (list string) :=
  option_map find_missing_dates (numeric_patient_data patient_rows).

(** One pass of the loop over patients (lines 62-140). *)
Definition patient_report (df_filtered : list Row) (p : option string)
  : option PatientReport :=
  let patient_rows := filter (fun r => cell_eqb (paciente r) p) df_filtered in
  match numeric_patient_data patient_rows with
  | None => None
  | Some patient_data =>
      Some (mkPatientReport p
              (sum_Z (map amount_of patient_data))
              (find_missing_dates patient_data)
              (map (modality_report patient_data)
                   (unique cell_same (map producto patient_data))))
  end.

Fixpoint render_patients (df_filtered : list Row) (patients : list (option string))
  : list PatientReport * bool :=
  match patients with
  | [] => ([], true)
  | p :: rest =>
      match patient_report df_filtered p with
      | None => ([], false)
      | Some rep =>
          let '(reps, ok) := render_patients df_filtered rest in
          (rep :: reps, ok)
      end
  end.

(** [str(person_under_control)] *)
Definition str_person (person : option string) : string :=
  match person with
  | Some s => s
  | None => "None"
  end.

Definition process_data (df : DataFrame) (person : option string) : outcome :=
  if empty df then EmptySheetWarning
  else if negb (forallb (fun col => mem String.eqb col (columns df)) required_columns)
  then MissingColumnsError (missing_columns df)
  else
    match re_compile (str_person person) with
    | None => PatternError
    | Some contains =>
        let df_filtered :=
          filter (fun r => contains (astype_str (liquidacion r))) (rows df) in
        match df_filtered with
        | [] => NoDataWarning
        | _ :: _ =>
            let patients := unique cell_same (map paciente df_filtered) in
            let '(reps, ok) := render_patients df_filtered patients in
            if ok then Rendered reps else Crashed reps
        end
    end.

End Pandas.

(** A reader of plain integers, used to run the model on sample ledgers:
    an optional minus sign and digits; the empty text is NaN, as
    [pd.to_numeric] has it, and any other text, "nan" included, is not a
    number. *)
Fixpoint read_digits (acc : Z) (s : string) : option Z :=
  match s with
  | EmptyString => Some acc
  | String c rest =>
      let n := Str.code c in
      if (Nat.leb 48 n && Nat.leb n 57)%bool
      then read_digits (10 * acc + Z.of_nat (n - 48)) rest
      else None
  end.

Definition read_integer (s : string) : option (option Z) :=
  match s with
  | EmptyString => Some None
  | String c rest =>
      if Str.is_hyphen c then
        match rest with
        | EmptyString => None
        | _ => option_map (fun v => Some (- v)) (read_digits 0 rest)
        end
      else option_map Some (read_digits 0 s)
  end.

(** ** The patient total in the arithmetic of the column (lines 70-76)

    After line 69 the amounts are a numeric column of the dtype pandas
    chose: [int64] when every text read as an integer, [float64] otherwise.
    The dtype [num], the sort behind [sort_values] and the sum of numpy are
    kept as they come: the first two as parameters, the third as
    [column_sum] for the cases where numpy adds in row order. *)

Section ColumnSum.
Variable num : Type.

Record NumRow : Type := mkNumRow {
  num_date   : option Z;     (* 'F. Actividad' *)
  num_amount : option num;   (* 'I. Liquidado'; [None] is NaN *)
  num_file   : string        (* 'source_file' *)
}.

(** [sort_values(by='F. Actividad')] and [ndarray.sum]. *)
Variable sort_rows : list NumRow -> list NumRow.
Variable reduce : list num -> num.

Definition num_notna (r : NumRow) : bool :=
  match num_amount r with Some _ => true | None => false end.

Fixpoint num_values (l : list NumRow) : list num :=
  match l with
  | [] => []
  | r :: l' =>
      match num_amount r with
      | Some v => v :: num_values l'
      | None => num_values l'
      end
  end.

(** Lines 70, 73 and 76. *)
Definition patient_total (patient_data : list NumRow) : num :=
  reduce (num_values (sort_rows (filter num_notna patient_data))).

End ColumnSum.

Arguments mkNumRow {num} _ _ _.
Arguments num_date {num} _.
Arguments num_amount {num} _.
Arguments num_file {num} _.
Arguments num_notna {num} _.
Arguments num_values {num} _.
Arguments patient_total {num} _ _ _.

(** The sum of an integer column, and of a float column of fewer than
    eight values: numpy adds them in row order, starting from zero. *)
Definition column_sum {num : Type} (add : num -> num -> num) (zero : num)
  (values : list num) : num :=
  fold_left add values zero.

(** The sort of a column of at most sixteen rows: an insertion sort, which
    leaves rows of equal date in the order they came. *)
Definition insertion_sort_rows {num : Type} (l : list (NumRow num))
  : list (NumRow num) :=
  sort_by (fun a b => date_leb (num_date a) (num_date b)) l.

(** [df['source_file'] = ...] on the rows of a numeric ledger. *)
Definition retag {num : Type} (tag : NumRow num -> string) (r : NumRow num)
  : NumRow num :=
  mkNumRow (num_date r) (num_amount r) (tag r).

(** ** [main]: reading the uploaded files (lines 187-248)

    The decryption library and the spreadsheet readers are outside the
    program: they are section variables, each with the outcomes the program
    tells apart. *)

(** [str.lower()] on the code points below 256. *)
Definition str_lower (c : ascii) : ascii :=
  let n := Str.code c in
  if ((Nat.leb 65 n && Nat.leb n 90)
      || (Nat.leb 192 n && Nat.leb n 222 && negb (Nat.eqb n 215)))%bool
  then ascii_of_nat (n + 32) else c.

Definition is_dot (c : ascii) : bool := Nat.eqb (Str.code c) 46.

(** [uploaded_file.name.split('.')[-1].lower()] *)
Definition file_extension (name : string) : string :=
  Str.map str_lower (Str.after_last is_dot name).

Record UploadedFile : Type := mkUploadedFile {
  file_name  : string;
  file_bytes : string
}.

(** What the [try] block around the decryption ends with. *)
Inductive decrypt_result : Type :=
| Decrypted (stream : string)   (* [decrypt] wrote the clear workbook *)
| DecryptionError               (* [msoffcrypto.exceptions.DecryptionError] *)
| DecryptException.             (* any other exception *)

(** What becomes of one uploaded file. *)
Inductive file_outcome : Type :=
| Loaded (df : DataFrame) (fell_back : bool)
    (* appended to [all_dfs]; [fell_back]: the "Could not decrypt" warning *)
| IncorrectPassword             (* line 210, then [continue] *)
| XlsPasswordUnsupported        (* line 222, then [continue] *)
| ProcessingError (fell_back : bool)   (* line 233 *)
| NotRead.                      (* [df] stays [None] *)

Definition set_source_file (name : string) (r : Row) : Row :=
  mkRow (liquidacion r) (paciente r) (f_actividad r) (producto r)
        (i_liquidado r) name.

(** [df['source_file'] = uploaded_file.name] *)
Definition tag_source_file (name : string) (df : DataFrame) : DataFrame :=
  mkDataFrame
    (if mem String.eqb col_source_file (columns df) then columns df
     else columns df ++ [col_source_file])
    (map (set_source_file name) (rows df)).

(** A row of a frame as [pd.concat] carries it over: the cells of the
    columns the frame does not have are missing. *)
Definition blank_absent (cols : list string) (r : Row) : Row :=
  let has col := mem String.eqb col cols in
  mkRow (if has col_liquidacion then liquidacion r else None)
        (if has col_paciente then paciente r else None)
        (if has col_f_actividad then f_actividad r else None)
        (if has col_producto then producto r else None)
        (if has col_i_liquidado then i_liquidado r else ANull)
        (source_file r).

(** [pd.concat(all_dfs, ignore_index=True)]: the columns of all frames in
    order of first appearance, the rows one frame after the other. *)
Definition concat (all_dfs : list DataFrame) : DataFrame :=
  mkDataFrame
    (unique String.eqb (flat_map columns all_dfs))
    (flat_map (fun df => map (blank_absent (columns df)) (rows df)) all_dfs).

Definition loaded_frame (o : file_outcome) : list DataFrame :=
  match o with
  | Loaded df _ => [df]
  | _ => []
  end.

Inductive main_outcome : Type :=
| NothingUploaded                       (* [if uploaded_files:] fails *)
| NoValidFiles (files : list file_outcome)          (* line 248 *)
| Report (files : list file_outcome) (person : option string)
         (report : outcome).            (* lines 245-246 *)

Section Main.

Variable parse_number : string -> option (option Z).
Variable re_compile : string -> option (string -> bool).

(** [OfficeFile(bytes)], [load_key(password)], [decrypt(stream)]. *)
Variable office_decrypt : string -> string -> decrypt_result.

(** [pd.read_excel(stream, sheet_name=1, engine=...)]; [None] when it
    raises. *)
Variable read_excel_openpyxl : string -> option DataFrame.
Variable read_excel_xlrd : string -> option DataFrame.

Definition after_read (name : string) (fell_back : bool)
           (read : option DataFrame) : file_outcome :=
  match read with
  | Some df => Loaded (tag_source_file name df) fell_back
  | None => ProcessingError fell_back
  end.

(** The body of the loop over the uploaded files (lines 192-233). *)
Definition load_file (password : string) (f : UploadedFile) : file_outcome :=
  let file_extension := file_extension (file_name f) in
  let uploaded_bytes := file_bytes f in
  let has_password := negb (String.eqb password "") in
  if String.eqb file_extension "xlsx" then
    if has_password then
      match office_decrypt uploaded_bytes password with
      | DecryptionError => IncorrectPassword
      | DecryptException =>
          after_read (file_name f) true (read_excel_openpyxl uploaded_bytes)
      | Decrypted decrypted_stream =>
          match read_excel_openpyxl decrypted_stream with
          | Some df => Loaded (tag_source_file (file_name f) df) false
          | None =>
              after_read (file_name f) true (read_excel_openpyxl uploaded_bytes)
          end
      end
    else after_read (file_name f) false (read_excel_openpyxl uploaded_bytes)
  else if String.eqb file_extension "xls" then
    if has_password then XlsPasswordUnsupported
    else after_read (file_name f) false (read_excel_xlrd uploaded_bytes)
  else NotRead.

Definition main (uploaded_files : list UploadedFile) (password : string)
  : main_outcome :=
  match uploaded_files with
  | [] => NothingUploaded
  | _ :: _ =>
      let files := map (load_file password) uploaded_files in
      let all_dfs := flat_map loaded_frame files in
      match all_dfs with
      | [] => NoValidFiles files
      | _ :: _ =>
          let combined_df := concat all_dfs in
          let person := person_under_control combined_df in
          Report files person
                 (process_data parse_number re_compile combined_df person)
      end
  end.

End Main.

(** * Properties *)

(** ** Lists: membership, [unique], sorting *)

Section ListFacts.
Context {A : Type}.
Variable eqb : A -> A -> bool.
Hypothesis eqb_spec : forall x y, eqb x y = true <-> x = y.

Lemma mem_In (x : A) (l : list A) : mem eqb x l = true <-> In x l.
Proof.
  induction l as [|y l IH]; simpl.
  - split; [discriminate | tauto].
  - rewrite orb_true_iff, IH, eqb_spec. split; intros [H|H]; auto.
Qed.

Lemma mem_false (x : A) (l : list A) : mem eqb x l = false <-> ~ In x l.
Proof.
  rewrite <- mem_In. destruct (mem eqb x l); split; congruence.
Qed.

Lemma In_unique (x : A) (l : list A) : In x (unique eqb l) <-> In x l.
Proof.
  induction l as [|y l IH]; simpl; [tauto|].
  rewrite filter_In, IH, negb_true_iff.
  split.
  - intros [H|[H _]]; auto.
  - intros [H|H]; auto.
    destruct (eqb y x) eqn:E.
    + left. now apply eqb_spec.
    + right. auto.
Qed.

Lemma NoDup_unique (l : list A) : NoDup (unique eqb l).
Proof.
  induction l as [|y l IH]; simpl; constructor.
  - rewrite filter_In, negb_true_iff. intros [_ H].
    assert (eqb y y = true) by now apply eqb_spec. congruence.
  - now apply NoDup_filter.
Qed.

(** Two different values in a list give at least two unique values, and
    conversely. *)
Lemma unique_two (x y : A) (l : list A) :
  In x l -> In y l -> x <> y -> (2 <= List.length (unique eqb l))%nat.
Proof.
  intros Hx Hy Hxy.
  assert (Hincl : incl [x; y] (unique eqb l)).
  { intros z [<-|[<-|[]]]; now apply In_unique. }
  apply NoDup_incl_length in Hincl; [exact Hincl|].
  constructor; [simpl; intuition congruence|].
  constructor; [simpl; tauto | constructor].
Qed.

Lemma two_unique (l : list A) :
  (2 <= List.length (unique eqb l))%nat ->
  exists x y, In x l /\ In y l /\ x <> y.
Proof.
  intros H. pose proof (NoDup_unique l) as ND.
  destruct (unique eqb l) as [|x [|y u]] eqn:E; simpl in H; try lia.
  exists x, y. repeat split.
  - apply In_unique. rewrite E. now left.
  - apply In_unique. rewrite E. right. now left.
  - inversion ND as [|? ? Hnot _]. intros ->. apply Hnot. now left.
Qed.
End ListFacts.

Section SortFacts.
Context {A : Type}.
Variable leb : A -> A -> bool.

Lemma insert_by_perm (x : A) (l : list A) :
  Permutation (insert_by leb x l) (x :: l).
Proof.
  induction l as [|y l IH]; simpl; [reflexivity|].
  destruct (leb x y); [reflexivity|].
  rewrite IH. apply perm_swap.
Qed.

Lemma sort_by_perm (l : list A) : Permutation (sort_by leb l) l.
Proof.
  induction l as [|x l IH]; simpl; [reflexivity|].
  unfold sort_by in *. simpl. rewrite insert_by_perm. now constructor.
Qed.

Lemma In_sort_by (x : A) (l : list A) : In x (sort_by leb l) <-> In x l.
Proof.
  split; apply Permutation_in; [|symmetry]; apply sort_by_perm.
Qed.

End SortFacts.

Lemma insert_sorted (x : Z) (l : list Z) :
  StronglySorted Z.le l -> StronglySorted Z.le (insert_by Z.leb x l).
Proof.
  induction 1 as [|y l Hs IH Hall]; simpl.
  - repeat constructor.
  - destruct (Z.leb_spec x y).
    + constructor; [now constructor|].
      constructor; [assumption|].
      eapply Forall_impl; [|exact Hall]. simpl. intros; lia.
    + constructor; [assumption|].
      rewrite Forall_forall in *. intros z Hz.
      apply (Permutation_in _ (insert_by_perm Z.leb x l)) in Hz.
      destruct Hz as [<-|Hz]; [lia | auto].
Qed.

Lemma sort_sorted (l : list Z) : StronglySorted Z.le (sort_by Z.leb l).
Proof.
  induction l as [|x l IH]; [constructor|].
  unfold sort_by in *. simpl. now apply insert_sorted.
Qed.

(** A sorted list without repetition is strictly increasing. *)
Lemma sorted_nodup_strict (l : list Z) :
  StronglySorted Z.le l -> NoDup l -> StronglySorted Z.lt l.
Proof.
  induction 1 as [|x l Hs IH Hall]; intros ND; constructor;
    inversion ND as [|? ? Hnot ND']; subst; auto.
  rewrite Forall_forall in *. intros y Hy.
  specialize (Hall y Hy). assert (x <> y) by (intros ->; auto). lia.
Qed.

Lemma sort_nodup_strict (l : list Z) :
  NoDup l -> StronglySorted Z.lt (sort_by Z.leb l).
Proof.
  intros ND. apply sorted_nodup_strict; [apply sort_sorted|].
  eapply Permutation_NoDup; [symmetry; apply sort_by_perm | exact ND].
Qed.

Lemma filter_strongly_sorted {A : Type} (R : A -> A -> Prop) (p : A -> bool)
      (l : list A) :
  StronglySorted R l -> StronglySorted R (filter p l).
Proof.
  induction 1 as [|x l Hs IH Hall]; simpl; [constructor|].
  destruct (p x); [|assumption].
  constructor; [assumption|].
  rewrite Forall_forall in *. intros y Hy. apply filter_In in Hy. now apply Hall.
Qed.

Lemma sum_Z_perm (l l' : list Z) : Permutation l l' -> sum_Z l = sum_Z l'.
Proof.
  induction 1; simpl; lia.
Qed.

(** Specifications of the equality tests used as [eqb]. *)
Lemma date_same_spec (a b : option Z) : date_same a b = true <-> a = b.
Proof.
  destruct a, b; simpl; try rewrite Z.eqb_eq; split; congruence.
Qed.

Lemma string_eqb_spec (a b : string) : String.eqb a b = true <-> a = b.
Proof. apply String.eqb_eq. Qed.

Lemma In_dropna_dates (t : Z) (l : list (option Z)) :
  In t (dropna_dates l) <-> In (Some t) l.
Proof.
  induction l as [|[u|] l IH]; simpl; [tauto| |].
  - rewrite IH. split; intros [H|H]; auto; left; congruence.
  - rewrite IH. split; [auto | intros [H|H]; [discriminate | auto]].
Qed.

Lemma NoDup_dropna_dates (l : list (option Z)) :
  NoDup l -> NoDup (dropna_dates l).
Proof.
  induction 1 as [|[u|] l Hnot ND IH]; simpl; auto; try constructor; auto.
  now rewrite In_dropna_dates.
Qed.

(** ** The person under control *)

Lemma lazy_group_no_newline (s : string) :
  Str.has Str.is_newline s = false -> Re.lazy_group_to_end s = Some s.
Proof.
  induction s as [|c s IH]; simpl; [reflexivity|].
  intros H. apply orb_false_iff in H as [Hc Hs].
  rewrite Hc, (IH Hs). reflexivity.
Qed.

Lemma search_without_hyphen (s : string) :
  Str.has Str.is_hyphen s = false -> Re.search_hyphen_group s = None.
Proof.
  induction s as [|c s IH]; simpl; [reflexivity|].
  intros H. apply orb_false_iff in H as [Hc Hs].
  rewrite Hc. auto.
Qed.

Lemma search_first_hyphen (s : string) :
  Str.has Str.is_hyphen s = true ->
  Str.has Str.is_newline s = false ->
  Re.search_hyphen_group s = Some (Str.after_first Str.is_hyphen s).
Proof.
  induction s as [|c s IH]; simpl; [discriminate|].
  intros Hh Hn. apply orb_false_iff in Hn as [_ Hn].
  destruct (Str.is_hyphen c); simpl in Hh.
  - now rewrite (lazy_group_no_newline s Hn).
  - auto.
Qed.

(** A sample combined dataset whose first identifier is [id]. *)
Definition sample_identifier_row (id : string) : Row :=
  mkRow (Some id) (Some "P") None None ANull "a.xlsx".

Definition sample_identifier_df (id : string) : DataFrame :=
  mkDataFrame [col_liquidacion; col_paciente; col_source_file]
              [sample_identifier_row id].

(** C1 (as the program has it).  When the first settlement identifier of
    the combined dataset holds no hyphen the person under control is
    [None]; when it holds a hyphen (and no line break) the person is
    everything after the FIRST hyphen, stripped. *)
Theorem person_under_control_after_first_hyphen
        (df : DataFrame) (first : Row) (others : list Row) (s : string) :
  In col_liquidacion (columns df) ->
  rows df = first :: others ->
  s = astype_str (liquidacion first) ->
  (Str.has Str.is_hyphen s = false -> person_under_control df = None) /\
  (Str.has Str.is_hyphen s = true -> Str.has Str.is_newline s = false ->
   person_under_control df
   = Some (Str.strip (Str.after_first Str.is_hyphen s))).
Proof.
  intros Hcol Hrows ->. unfold person_under_control, person_of_identifier.
  apply (mem_In String.eqb string_eqb_spec) in Hcol. rewrite Hcol, Hrows.
  split.
  - intros H. now rewrite (search_without_hyphen _ H).
  - intros Hh Hn. now rewrite (search_first_hyphen _ Hh Hn).
Qed.

Lemma person_under_control_after_first_hyphen_witness :
  person_under_control (sample_identifier_df "A-B-Doe") = Some "B-Doe"
  /\ person_under_control (sample_identifier_df "ABDoe") = None.
Proof.
  split.
  - refine (proj2 (person_under_control_after_first_hyphen
                     (sample_identifier_df "A-B-Doe")
                     (sample_identifier_row "A-B-Doe") [] "A-B-Doe"
                     _ eq_refl eq_refl) eq_refl eq_refl).
    simpl. auto.
  - refine (proj1 (person_under_control_after_first_hyphen
                     (sample_identifier_df "ABDoe")
                     (sample_identifier_row "ABDoe") [] "ABDoe"
                     _ eq_refl eq_refl) eq_refl).
    simpl. auto.
Defined.

(** C1 as stated fails on "A-B-Doe": the text after the last hyphen is
    "Doe", the program yields "B-Doe". *)
Lemma person_after_last_hyphen_counterexample :
  Str.has Str.is_hyphen "A-B-Doe" = true
  /\ Str.strip (Str.after_last Str.is_hyphen "A-B-Doe") = "Doe"
  /\ person_under_control (sample_identifier_df "A-B-Doe") = Some "B-Doe"
  /\ person_under_control (sample_identifier_df "A-B-Doe")
     <> Some (Str.strip (Str.after_last Str.is_hyphen "A-B-Doe")).
Proof.
  repeat split; try reflexivity. vm_compute. discriminate.
Qed.

(** ** The category test *)

Lemma dot_lower_not_newline (c x : ascii) :
  Nat.eqb (Str.code c) 46 = true ->
  Str.lower c = Str.lower x -> Str.is_newline x = false.
Proof.
  intros Hc. apply Nat.eqb_eq in Hc.
  assert (Ec : c = ascii_of_nat 46).
  { rewrite <- Hc. unfold Str.code. symmetry. apply ascii_nat_embedding. }
  subst c.
  destruct x as [[] [] [] [] [] [] [] []]; vm_compute; congruence.
Qed.

Lemma prefix_lower_match_here (p s : string) :
  prefix (Str.map Str.lower p) (Str.map Str.lower s) = true ->
  Re.match_here true (Re.compile p) s = true.
Proof.
  revert s. induction p as [|c p IH]; intros s; [reflexivity|].
  destruct s as [|x s]; simpl; [discriminate|].
  destruct (ascii_dec (Str.lower c) (Str.lower x)) as [E|E]; [|discriminate].
  intros H. rewrite (IH _ H), andb_true_r.
  destruct (Nat.eqb (Str.code c) 46) eqn:Hdot; simpl.
  - now rewrite (dot_lower_not_newline c x Hdot E).
  - unfold Str.eqb_ci. now apply Ascii.eqb_eq.
Qed.

(** Every product holding the category as a literal substring, case
    ignored, is selected by the program's test. *)
Lemma literal_category_is_selected (p s : string) :
  contains_literal_ci p s = true -> Re.search true (Re.compile p) s = true.
Proof.
  unfold contains_literal_ci.
  induction s as [|x s IH]; simpl.
  - apply (prefix_lower_match_here p "").
  - intros H. apply orb_true_iff in H as [H|H]; apply orb_true_iff.
    + left. now apply (prefix_lower_match_here p (String x s)).
    + right. auto.
Qed.

(** C4 at the failing input.  The product "INGRESO NO QUIRURGICO" does not
    hold the text "INGRESO NO QUIR." in any letter case, yet the program
    selects it: [str.contains] reads the final [.] of the category as "any
    character".  Products that do hold the literal text are all selected. *)
Theorem category_dot_selects_other_products :
  contains_literal_ci category "INGRESO NO QUIRURGICO" = false
  /\ is_ingreso_no_quir
       (mkRow None None None (Some "INGRESO NO QUIRURGICO") ANull "a.xlsx") = true
  /\ (forall product, contains_literal_ci category product = true ->
                      contains_category product = true).
Proof.
  split; [reflexivity|]. split; [reflexivity|].
  intros product. apply literal_category_is_selected.
Qed.

(** ** Timestamps and date ranges *)

Lemma DAY_pos : 0 < Time.DAY.
Proof. reflexivity. Qed.

Lemma fold_min_spec (l : list Z) (a : Z) :
  let m := fold_left Z.min l a in
  (m = a \/ In m l) /\ m <= a /\ forall x, In x l -> m <= x.
Proof.
  revert a. induction l as [|y l IH]; intros a; simpl.
  - repeat split; auto; try lia; intros x Hx; destruct Hx.
  - destruct (IH (Z.min a y)) as (Hin & Hle & Hall).
    repeat split.
    + destruct Hin as [E|Hin]; [|auto].
      rewrite E. destruct (Z.min_spec a y) as [[_ ->]|[_ ->]]; auto.
    + lia.
    + intros x [<-|Hx]; [lia | auto].
Qed.

Lemma fold_max_spec (l : list Z) (a : Z) :
  let m := fold_left Z.max l a in
  (m = a \/ In m l) /\ a <= m /\ forall x, In x l -> x <= m.
Proof.
  revert a. induction l as [|y l IH]; intros a; simpl.
  - repeat split; auto; try lia; intros x Hx; destruct Hx.
  - destruct (IH (Z.max a y)) as (Hin & Hle & Hall).
    repeat split.
    + destruct Hin as [E|Hin]; [|auto].
      rewrite E. destruct (Z.max_spec a y) as [[_ ->]|[_ ->]]; auto.
    + lia.
    + intros x [<-|Hx]; [lia | auto].
Qed.

Lemma index_min_spec (l : list Z) :
  l <> [] ->
  In (Time.index_min l) l /\ forall x, In x l -> Time.index_min l <= x.
Proof.
  destruct l as [|a l]; [congruence|]. intros _. simpl.
  destruct (fold_min_spec l a) as (Hin & Hle & Hall). split.
  - destruct Hin as [->|Hin]; auto.
  - intros x [<-|Hx]; auto.
Qed.

Lemma index_max_spec (l : list Z) :
  l <> [] ->
  In (Time.index_max l) l /\ forall x, In x l -> x <= Time.index_max l.
Proof.
  destruct l as [|a l]; [congruence|]. intros _. simpl.
  destruct (fold_max_spec l a) as (Hin & Hle & Hall). split.
  - destruct Hin as [->|Hin]; auto.
  - intros x [<-|Hx]; auto.
Qed.

(** The steps [k] that [date_range] takes are those with
    [start + k days <= stop]. *)
Lemma step_in_range (start stop : Z) (k : nat) :
  start <= stop ->
  (k < S (Z.to_nat ((stop - start) / Time.DAY)))%nat
  <-> start + Z.of_nat k * Time.DAY <= stop.
Proof.
  intros Hle. pose proof DAY_pos as Hd.
  assert (Hq : 0 <= (stop - start) / Time.DAY) by (apply Z.div_pos; lia).
  pose proof (Z.mul_div_le (stop - start) Time.DAY Hd) as Hm.
  split.
  - intros Hk.
    assert (Z.of_nat k <= (stop - start) / Time.DAY) by lia.
    assert (Z.of_nat k * Time.DAY <= (stop - start) / Time.DAY * Time.DAY)
      by (apply Z.mul_le_mono_nonneg_r; lia).
    lia.
  - intros Hk.
    assert (Z.of_nat k <= (stop - start) / Time.DAY).
    { apply Z.div_le_lower_bound; lia. }
    lia.
Qed.

Lemma In_date_range (start stop t : Z) :
  In t (Time.date_range start stop)
  <-> exists k : nat, t = start + Z.of_nat k * Time.DAY /\ t <= stop.
Proof.
  unfold Time.date_range. pose proof DAY_pos as Hd.
  destruct (Z.ltb_spec stop start) as [Hlt|Hle].
  - split; [intros [] | intros (k & -> & Hk)].
    assert (0 <= Z.of_nat k * Time.DAY) by (apply Z.mul_nonneg_nonneg; lia).
    lia.
  - rewrite in_map_iff. split.
    + intros (k & <- & Hk). exists k. split; [reflexivity|].
      apply in_seq in Hk. apply step_in_range; [assumption | lia].
    + intros (k & -> & Hk). exists k. split; [reflexivity|].
      apply in_seq. split; [lia|]. simpl. now apply step_in_range.
Qed.

Lemma steps_sorted (start : Z) (s n : nat) :
  StronglySorted Z.lt
    (map (fun k => start + Z.of_nat k * Time.DAY) (seq s n)).
Proof.
  pose proof DAY_pos as Hd.
  revert s. induction n as [|n IH]; intros s; simpl; constructor; [apply IH|].
  rewrite Forall_forall. intros y Hy.
  apply in_map_iff in Hy as (k & <- & Hk). apply in_seq in Hk.
  assert (Z.of_nat s * Time.DAY < Z.of_nat k * Time.DAY)
    by (apply Z.mul_lt_mono_pos_r; lia).
  lia.
Qed.

Lemma date_range_sorted (start stop : Z) :
  StronglySorted Z.lt (Time.date_range start stop).
Proof.
  unfold Time.date_range. destruct (stop <? start); [constructor|].
  apply steps_sorted.
Qed.

(** A range that does not reach the next day holds its start only. *)
Lemma date_range_within_a_day (start stop : Z) :
  start <= stop -> stop - start < Time.DAY ->
  Time.date_range start stop = [start].
Proof.
  intros Hle Hlt. unfold Time.date_range.
  destruct (Z.ltb_spec stop start); [lia|].
  rewrite Z.div_small by lia. simpl. f_equal. lia.
Qed.

Lemma same_day_close (t u : Z) :
  Time.day_of t = Time.day_of u -> t <= u -> u - t < Time.DAY.
Proof.
  unfold Time.day_of. intros E Hle. pose proof DAY_pos as Hd.
  pose proof (Z.div_mod t Time.DAY ltac:(lia)) as Ht.
  pose proof (Z.div_mod u Time.DAY ltac:(lia)) as Hu.
  pose proof (Z.mod_pos_bound t Time.DAY Hd).
  pose proof (Z.mod_pos_bound u Time.DAY Hd).
  rewrite E in Ht. lia.
Qed.

Lemma day_of_step (t : Z) (k : Z) :
  Time.day_of (t + k * Time.DAY) = Time.day_of t + k.
Proof.
  unfold Time.day_of. apply Z.div_add. pose proof DAY_pos. lia.
Qed.

Lemma whole_day_is_midnight (t : Z) :
  t mod Time.DAY = 0 -> t = Time.midnight (Time.day_of t).
Proof.
  unfold Time.midnight, Time.day_of. intros H. pose proof DAY_pos.
  pose proof (Z.div_mod t Time.DAY ltac:(lia)). lia.
Qed.

Lemma day_of_mono (t u : Z) : t <= u -> Time.day_of t <= Time.day_of u.
Proof.
  unfold Time.day_of. intros. apply Z.div_le_mono; [apply DAY_pos | assumption].
Qed.

(** The formatted day has the shape DD-MM-YY. *)
Lemma strftime_shape (t : Z) :
  String.length (Time.strftime t) = 8%nat
  /\ String.get 2 (Time.strftime t) = Some "-"%char
  /\ String.get 5 (Time.strftime t) = Some "-"%char.
Proof.
  unfold Time.strftime, Time.format_day.
  destruct (Time.civil_from_days (Time.day_of t)) as [[y m] d].
  repeat split.
Qed.

(** ** [find_missing_dates] *)

(** The present dates are the distinct non-null activity dates of the
    selected rows: each one once, however many rows carry it. *)
Lemma In_present_dates (df : list Row) (t : Z) :
  In t (present_dates df)
  <-> exists r, In r df /\ is_ingreso_no_quir r = true /\ f_actividad r = Some t.
Proof.
  unfold present_dates.
  rewrite In_dropna_dates, (In_unique date_same date_same_spec), in_map_iff.
  split.
  - intros (r & E & Hr). apply filter_In in Hr as [Hr Hs]. eauto.
  - intros (r & Hr & Hs & E). exists r. split; [assumption|].
    apply filter_In. auto.
Qed.

Lemma NoDup_present_dates (df : list Row) : NoDup (present_dates df).
Proof.
  unfold present_dates. apply NoDup_dropna_dates.
  apply (NoDup_unique date_same date_same_spec).
Qed.

Lemma missing_timestamps_unfold (df : list Row) :
  (2 <= List.length (present_dates df))%nat ->
  missing_timestamps df
  = filter (fun date => negb (mem Z.eqb date (present_dates df)))
           (Time.date_range (Time.index_min (present_dates df))
                            (Time.index_max (present_dates df))).
Proof.
  intros H. unfold missing_timestamps.
  destruct (filter is_ingreso_no_quir df) as [|r l] eqn:E.
  - unfold present_dates in H. rewrite E in H. simpl in H. lia.
  - destruct (Nat.ltb_spec (List.length (present_dates df)) 2); [lia|].
    reflexivity.
Qed.

Lemma present_bounds (df : list Row) :
  (1 <= List.length (present_dates df))%nat ->
  let present := present_dates df in
  In (Time.index_min present) present
  /\ In (Time.index_max present) present
  /\ forall t, In t present ->
               Time.index_min present <= t <= Time.index_max present.
Proof.
  intros H present.
  assert (Hne : present <> []).
  { subst present. destruct (present_dates df); simpl in H; [lia | congruence]. }
  destruct (index_min_spec present Hne) as [Hmin Hlo].
  destruct (index_max_spec present Hne) as [Hmax Hhi].
  repeat split; auto.
Qed.

Lemma In_missing_timestamps (df : list Row) :
  (2 <= List.length (present_dates df))%nat ->
  forall t, In t (missing_timestamps df) <->
    (exists k : nat,
        t = Time.index_min (present_dates df) + Z.of_nat k * Time.DAY
        /\ t <= Time.index_max (present_dates df))
    /\ ~ In t (present_dates df).
Proof.
  intros H t. rewrite (missing_timestamps_unfold df H), filter_In.
  rewrite In_date_range, negb_true_iff, (mem_false Z.eqb Z.eqb_eq).
  reflexivity.
Qed.

Lemma two_members_length {A : Type} (l : list A) (x y : A) :
  In x l -> In y l -> x <> y -> (2 <= List.length l)%nat.
Proof.
  intros Hx Hy Hxy.
  assert (Hincl : incl [x; y] l) by (intros z [<-|[<-|[]]]; assumption).
  apply NoDup_incl_length in Hincl; [exact Hincl|].
  constructor; [simpl; intuition congruence|].
  constructor; [simpl; tauto | constructor].
Qed.

(** The month and the day of the month are calendar values, so the two
    digits that [two_digits] writes are the whole number. *)
Lemma civil_from_days_bounds (days : Z) :
  let '(y, m, d) := Time.civil_from_days days in
  1 <= m <= 12 /\ 1 <= d <= 31.
Proof.
  unfold Time.civil_from_days. cbv zeta.
  set (z := days + 719468). set (era := z / 146097).
  set (doe := z - era * 146097).
  assert (Hdoe : 0 <= doe <= 146096).
  { unfold doe, era.
    pose proof (Z.mod_pos_bound z 146097 ltac:(lia)).
    pose proof (Z.div_mod z 146097 ltac:(lia)). lia. }
  clearbody doe. clear z era.
  set (yoe := (doe - doe / 1460 + doe / 36524 - doe / 146096) / 365).
  assert (Hdoy : 0 <= doe - (365 * yoe + yoe / 4 - yoe / 100) <= 365).
  { unfold yoe. Z.div_mod_to_equations. lia. }
  set (doy := doe - (365 * yoe + yoe / 4 - yoe / 100)) in *.
  clearbody doy.
  destruct (Z.ltb_spec ((5 * doy + 2) / 153) 10);
    Z.div_mod_to_equations; lia.
Qed.

(** *** The formatted text against the calendar *)

Definition add_years (k : Z) (date : Z * Z * Z) : Z * Z * Z :=
  let '(y, m, d) := date in (y + k, m, d).

(** [civil_from_days] within one 400-year era, from its day of the era. *)
Definition civil_of_doe (doe : Z) : Z * Z * Z :=
  let yoe := (doe - doe / 1460 + doe / 36524 - doe / 146096) / 365 in
  let doy := doe - (365 * yoe + yoe / 4 - yoe / 100) in
  let mp := (5 * doy + 2) / 153 in
  let d := doy - (153 * mp + 2) / 5 + 1 in
  let m := if mp <? 10 then mp + 3 else mp - 9 in
  (if m <=? 2 then yoe + 1 else yoe, m, d).

Definition date_eqb (a b : Z * Z * Z) : bool :=
  let '(y, m, d) := a in
  let '(y', m', d') := b in
  ((y =? y') && (m =? m') && (d =? d'))%bool.

Fixpoint doe_steps_agree (k : nat) (doe : Z) : bool :=
  match k with
  | O => true
  | S k' =>
      (date_eqb (civil_of_doe (doe + 1)) (Calendar.next_day (civil_of_doe doe))
       && doe_steps_agree k' (doe + 1))%bool
  end.

Lemma date_eqb_eq (a b : Z * Z * Z) : date_eqb a b = true -> a = b.
Proof.
  destruct a as [[y m] d], b as [[y' m'] d']. simpl.
  rewrite !andb_true_iff, !Z.eqb_eq. intros [[-> ->] ->]. reflexivity.
Qed.

Lemma doe_steps_agree_spec (k : nat) (doe : Z) :
  doe_steps_agree k doe = true ->
  forall i, doe <= i < doe + Z.of_nat k ->
            civil_of_doe (i + 1) = Calendar.next_day (civil_of_doe i).
Proof.
  revert doe. induction k as [|k IH]; intros doe H i Hi; [lia|].
  simpl in H. apply andb_true_iff in H as [Hnow Hrest].
  destruct (Z.eq_dec i doe) as [->|Hne].
  - now apply date_eqb_eq.
  - apply (IH (doe + 1) Hrest). lia.
Qed.

(** Within the era, each day's date is the day after the date before. *)
Lemma era_steps :
  forall i, 0 <= i < 146096 ->
            civil_of_doe (i + 1) = Calendar.next_day (civil_of_doe i).
Proof.
  apply (doe_steps_agree_spec (Z.to_nat 146096) 0).
  vm_compute. reflexivity.
Qed.

Lemma era_turn :
  add_years 400 (civil_of_doe 0) = Calendar.next_day (civil_of_doe 146096).
Proof. vm_compute. reflexivity. Qed.

Lemma civil_from_days_era (n : Z) :
  Time.civil_from_days n
  = add_years (400 * ((n + 719468) / 146097))
              (civil_of_doe ((n + 719468) mod 146097)).
Proof.
  unfold Time.civil_from_days, civil_of_doe, add_years. cbv zeta.
  replace (n + 719468 - (n + 719468) / 146097 * 146097)
    with ((n + 719468) mod 146097) by (rewrite Z.mod_eq; lia).
  set (doe := (n + 719468) mod 146097). set (era := (n + 719468) / 146097).
  set (yoe := (doe - doe / 1460 + doe / 36524 - doe / 146096) / 365).
  destruct ((if (5 * (doe - (365 * yoe + yoe / 4 - yoe / 100)) + 2) / 153 <? 10
             then _ else _) <=? 2);
    f_equal; f_equal; ring.
Qed.

Lemma is_leap_era (y k : Z) :
  Calendar.is_leap (y + 400 * k) = Calendar.is_leap y.
Proof.
  unfold Calendar.is_leap.
  assert (E4 : (y + 400 * k) mod 4 = y mod 4).
  { replace (y + 400 * k) with (y + (100 * k) * 4) by ring.
    apply Z.mod_add. lia. }
  assert (E100 : (y + 400 * k) mod 100 = y mod 100).
  { replace (y + 400 * k) with (y + (4 * k) * 100) by ring.
    apply Z.mod_add. lia. }
  assert (E400 : (y + 400 * k) mod 400 = y mod 400).
  { replace (y + 400 * k) with (y + k * 400) by ring.
    apply Z.mod_add. lia. }
  now rewrite E4, E100, E400.
Qed.

Lemma next_day_era (k : Z) (date : Z * Z * Z) :
  Calendar.next_day (add_years (400 * k) date)
  = add_years (400 * k) (Calendar.next_day date).
Proof.
  destruct date as [[y m] d].
  unfold Calendar.next_day, add_years, Calendar.days_in_month.
  rewrite is_leap_era.
  destruct (m =? 2); [destruct (Calendar.is_leap y)|];
    repeat match goal with
           | |- context [if ?c then _ else _] => destruct c
           end; try reflexivity; f_equal; f_equal; ring.
Qed.

(** Day 0 is 1 January 1970, and the date of every day is the day after
    the date of the day before: [civil_from_days] counts the days of the
    Gregorian calendar. *)
Lemma civil_from_days_calendar :
  Time.civil_from_days 0 = (1970, 1, 1)
  /\ forall n, Time.civil_from_days (n + 1)
               = Calendar.next_day (Time.civil_from_days n).
Proof.
  split; [reflexivity|]. intros n.
  rewrite !civil_from_days_era.
  replace (n + 1 + 719468) with (n + 719468 + 1) by ring.
  set (z := n + 719468).
  pose proof (Z.mod_pos_bound z 146097 ltac:(lia)) as Hdoe.
  rewrite next_day_era.
  destruct (Z.eq_dec (z mod 146097) 146096) as [E|E].
  - assert (Hq : (z + 1) / 146097 = z / 146097 + 1)
      by (Z.div_mod_to_equations; lia).
    assert (Hr : (z + 1) mod 146097 = 0)
      by (Z.div_mod_to_equations; lia).
    rewrite Hq, Hr, E, <- era_turn.
    destruct (civil_of_doe 0) as [[y m] d]. unfold add_years.
    f_equal. f_equal. ring.
  - assert (Hq : (z + 1) / 146097 = z / 146097)
      by (Z.div_mod_to_equations; lia).
    assert (Hr : (z + 1) mod 146097 = z mod 146097 + 1)
      by (Z.div_mod_to_equations; lia).
    rewrite Hq, Hr, era_steps by lia. reflexivity.
Qed.

Lemma two_digits_read (n : Z) :
  0 <= n < 100 ->
  Calendar.read_two_digits (Time.digit (n / 10)) (Time.digit n) = Some n.
Proof.
  intros Hn.
  assert (Hall : forallb
            (fun k => match Calendar.read_two_digits
                              (Time.digit (Z.of_nat k / 10))
                              (Time.digit (Z.of_nat k)) with
                      | Some v => v =? Z.of_nat k
                      | None => false
                      end)
            (seq 0 100) = true) by (vm_compute; reflexivity).
  rewrite forallb_forall in Hall.
  specialize (Hall (Z.to_nat n) ltac:(apply in_seq; lia)).
  rewrite Z2Nat.id in Hall by lia.
  destruct (Calendar.read_two_digits _ _) as [v|]; [|discriminate].
  apply Z.eqb_eq in Hall. now subst.
Qed.

(** The text written for a timestamp reads back as the day, the month and
    the year of the century of the timestamp's calendar date. *)
Lemma strftime_reads_back (t : Z) :
  exists y m d,
    Time.civil_from_days (Time.day_of t) = (y, m, d)
    /\ Calendar.read_dd_mm_yy (Time.strftime t) = Some (d, m, y mod 100).
Proof.
  unfold Time.strftime, Time.format_day.
  pose proof (civil_from_days_bounds (Time.day_of t)) as Hb.
  destruct (Time.civil_from_days (Time.day_of t)) as [[y m] d].
  exists y, m, d. split; [reflexivity|].
  pose proof (Z.mod_pos_bound y 100 ltac:(lia)) as Hy.
  unfold Time.two_digits. cbn [append Calendar.read_dd_mm_yy].
  change (Str.is_hyphen "-") with true. cbn [andb].
  now rewrite !two_digits_read by lia.
Qed.

(** C2.  With at least two distinct present dates, [find_missing_dates]
    returns, formatted DD-MM-YY and in chronological order, exactly the
    dates of the daily range from the smallest to the largest present date
    that are not present dates.  When the present dates are whole days,
    these are exactly the calendar days between the two with no present
    date.  Each text returned is the text of one of these dates and reads
    back, as DD-MM-YY, as the day, the month and the year of the century of
    that date in the Gregorian calendar: day 0 is 1 January 1970 and each
    day's date is the day after the date of the day before. *)
Theorem find_missing_dates_complement (df : list Row) :
  (2 <= List.length (present_dates df))%nat ->
  let present := present_dates df in
  let start_date := Time.index_min present in
  let end_date := Time.index_max present in
  (In start_date present /\ In end_date present
   /\ forall t, In t present -> start_date <= t <= end_date)
  /\ find_missing_dates df = map Time.strftime (missing_timestamps df)
  /\ (forall s, In s (find_missing_dates df) ->
        String.length s = 8%nat
        /\ String.get 2 s = Some "-"%char /\ String.get 5 s = Some "-"%char)
  /\ (forall t, In t (missing_timestamps df) <->
        (exists k : nat, t = start_date + Z.of_nat k * Time.DAY /\ t <= end_date)
        /\ ~ In t present)
  /\ StronglySorted Z.lt (missing_timestamps df)
  /\ ((forall t, In t present -> t mod Time.DAY = 0) ->
      forall t, In t (missing_timestamps df) <->
        (exists d, t = Time.midnight d
                   /\ Time.day_of start_date <= d <= Time.day_of end_date)
        /\ ~ In t present)
  /\ (forall s, In s (find_missing_dates df) ->
        exists t y m d,
          In t (missing_timestamps df) /\ s = Time.strftime t
          /\ Time.civil_from_days (Time.day_of t) = (y, m, d)
          /\ Calendar.read_dd_mm_yy s = Some (d, m, y mod 100))
  /\ Time.civil_from_days 0 = (1970, 1, 1)
  /\ (forall n, Time.civil_from_days (n + 1)
                = Calendar.next_day (Time.civil_from_days n)).
Proof.
  intros H present start_date end_date.
  destruct (present_bounds df ltac:(lia)) as (Hmin & Hmax & Hbounds).
  fold present start_date end_date in Hmin, Hmax, Hbounds.
  pose proof (In_missing_timestamps df H) as Hchar.
  fold present start_date end_date in Hchar.
  split; [auto|]. split; [reflexivity|]. split.
  { intros s Hs. apply in_map_iff in Hs as (t & <- & _). apply strftime_shape. }
  split; [exact Hchar|]. split.
  { rewrite (missing_timestamps_unfold df H).
    apply filter_strongly_sorted, date_range_sorted. }
  split; [|split; [|exact civil_from_days_calendar]].
  2:{ intros s Hs. apply in_map_iff in Hs as (t & <- & Ht).
      destruct (strftime_reads_back t) as (y & m & d & Ec & Er).
      exists t, y, m, d. auto. }
  intros Hwhole t. rewrite Hchar.
  pose proof (whole_day_is_midnight _ (Hwhole _ Hmin)) as Elo.
  pose proof (whole_day_is_midnight _ (Hwhole _ Hmax)) as Ehi.
  pose proof DAY_pos as Hd.
  split; intros [Hrange Hnot]; split; auto.
  - destruct Hrange as (k & -> & Hk).
    exists (Time.day_of start_date + Z.of_nat k). split.
    + unfold Time.midnight in *. lia.
    + split; [lia|].
      rewrite <- (day_of_step start_date (Z.of_nat k)). now apply day_of_mono.
  - destruct Hrange as (d & -> & Hlo & Hhi).
    exists (Z.to_nat (d - Time.day_of start_date)). split.
    + unfold Time.midnight in *. rewrite Z2Nat.id by lia. lia.
    + rewrite Ehi. unfold Time.midnight.
      apply Z.mul_le_mono_nonneg_r; lia.
Qed.

(** Two selected rows, on 1 and 3 January 2024 (days 19723 and 19725). *)
Definition sample_gap_rows : list Row :=
  [mkRow (Some "L-Doe") (Some "P") (Some (Time.midnight 19723))
         (Some "INGRESO NO QUIR. A") (ANum 10) "a.xlsx";
   mkRow (Some "L-Doe") (Some "P") (Some (Time.midnight 19725))
         (Some "ingreso no quir. A") (ANum 10) "a.xlsx"].

Lemma find_missing_dates_complement_witness :
  find_missing_dates sample_gap_rows = ["02-01-24"]
  /\ StronglySorted Z.lt (missing_timestamps sample_gap_rows)
  /\ Calendar.read_dd_mm_yy "02-01-24" = Some (2, 1, 24).
Proof.
  assert (H : (2 <= List.length (present_dates sample_gap_rows))%nat)
    by (vm_compute; lia).
  pose proof (find_missing_dates_complement sample_gap_rows H)
    as (_ & _ & _ & _ & Hs & _).
  split; [reflexivity | split; [exact Hs | reflexivity]].
Defined.

(** C3.  The present dates hold each date once, however many rows carry
    it; [find_missing_dates] returns the empty list when there are fewer
    than two of them, and more generally when all present timestamps fall
    on one calendar day. *)
Theorem find_missing_dates_single_day (df : list Row) :
  NoDup (present_dates df)
  /\ ((List.length (present_dates df) < 2)%nat -> find_missing_dates df = [])
  /\ ((forall r1 r2 t1 t2,
          In r1 df -> In r2 df ->
          is_ingreso_no_quir r1 = true -> is_ingreso_no_quir r2 = true ->
          f_actividad r1 = Some t1 -> f_actividad r2 = Some t2 ->
          Time.day_of t1 = Time.day_of t2) ->
      find_missing_dates df = []).
Proof.
  assert (Hfew : (List.length (present_dates df) < 2)%nat ->
                 find_missing_dates df = []).
  { intros H. unfold find_missing_dates, missing_timestamps.
    destruct (filter is_ingreso_no_quir df); [reflexivity|].
    destruct (Nat.ltb_spec (List.length (present_dates df)) 2);
      [reflexivity | lia]. }
  split; [apply NoDup_present_dates|]. split; [exact Hfew|].
  intros Hday.
  destruct (Nat.lt_ge_cases (List.length (present_dates df)) 2) as [H|H];
    [auto|].
  destruct (present_bounds df ltac:(lia)) as (Hmin & Hmax & Hbounds).
  unfold find_missing_dates. rewrite (missing_timestamps_unfold df H).
  pose proof (Hbounds _ Hmax) as Hle.
  assert (Hsame : Time.day_of (Time.index_min (present_dates df))
                  = Time.day_of (Time.index_max (present_dates df))).
  { apply In_present_dates in Hmin as (r1 & Hr1 & Hs1 & E1).
    apply In_present_dates in Hmax as (r2 & Hr2 & Hs2 & E2).
    exact (Hday r1 r2 _ _ Hr1 Hr2 Hs1 Hs2 E1 E2). }
  rewrite date_range_within_a_day;
    [| lia | apply same_day_close; [exact Hsame | lia]].
  simpl.
  destruct (present_bounds df ltac:(lia)) as (Hmin' & _).
  apply (mem_In Z.eqb Z.eqb_eq) in Hmin'. now rewrite Hmin'.
Qed.

(** Three selected rows of one calendar day, two of them at the same
    timestamp and one later that day. *)
Definition sample_one_day_rows : list Row :=
  [mkRow (Some "L-Doe") (Some "P") (Some (Time.midnight 19723))
         (Some "INGRESO NO QUIR. A") (ANum 10) "a.xlsx";
   mkRow (Some "L-Doe") (Some "P") (Some (Time.midnight 19723))
         (Some "INGRESO NO QUIR. A") (ANum 10) "b.xlsx";
   mkRow (Some "L-Doe") (Some "P") (Some (Time.midnight 19723 + 3600000000000))
         (Some "INGRESO NO QUIR. A") (ANum 10) "a.xlsx"].

Lemma find_missing_dates_single_day_witness :
  find_missing_dates sample_one_day_rows = []
  /\ find_missing_dates (firstn 2 sample_one_day_rows) = [].
Proof.
  split.
  - apply (proj2 (proj2 (find_missing_dates_single_day sample_one_day_rows))).
    intros r1 r2 t1 t2 H1 H2 _ _ E1 E2.
    simpl in H1, H2.
    destruct H1 as [<-|[<-|[<-|[]]]]; destruct H2 as [<-|[<-|[<-|[]]]];
      simpl in E1, E2; inversion E1; inversion E2; reflexivity.
  - apply (proj1 (proj2 (find_missing_dates_single_day
                           (firstn 2 sample_one_day_rows)))).
    vm_compute. lia.
Defined.

(** ** The per-patient total and the rows that reach the gap analysis *)

(** The amounts that are numbers, missing ones left out. *)
Fixpoint present_amounts (amounts : list (option Z)) : list Z :=
  match amounts with
  | [] => []
  | Some v :: amounts' => v :: present_amounts amounts'
  | None :: amounts' => present_amounts amounts'
  end.

Lemma sort_values_perm (l : list Row) : Permutation (sort_values l) l.
Proof. apply sort_by_perm. Qed.

Section PandasFacts.
Variable parse_number : string -> option (option Z).

Lemma to_numeric_all_cons (c : amount_cell) (cells : list amount_cell) :
  to_numeric_all parse_number (c :: cells)
  = match to_numeric_cell parse_number c, to_numeric_all parse_number cells with
    | Some a, Some l => Some (a :: l)
    | _, _ => None
    end.
Proof. reflexivity. Qed.

(** One cell that is not a number makes the conversion fail. *)
Lemma to_numeric_all_fails (cells : list amount_cell) (c : amount_cell) :
  In c cells -> to_numeric_cell parse_number c = None -> to_numeric_all parse_number cells = None.
Proof.
  induction cells as [|c' cells IH]; intros Hin Hc; [destruct Hin|].
  rewrite to_numeric_all_cons. destruct Hin as [->|Hin].
  - now rewrite Hc.
  - rewrite (IH Hin Hc). now destruct (to_numeric_cell parse_number c').
Qed.

(** The rows kept by [dropna] after a successful conversion. *)
Lemma In_kept_rows (l : list Row) (amounts : list (option Z)) (r : Row) :
  to_numeric_all parse_number (map i_liquidado l) = Some amounts ->
  (In r (dropna (assign_amounts l amounts)) <->
   exists r0 a, In r0 l /\ to_numeric_cell parse_number (i_liquidado r0) = Some (Some a)
                /\ r = set_amount r0 (Some a)).
Proof.
  revert amounts. induction l as [|r1 l IH]; intros amounts.
  - simpl. intros _. split; [intros [] | intros (? & ? & [] & _)].
  - simpl map. rewrite to_numeric_all_cons.
    destruct (to_numeric_cell parse_number (i_liquidado r1)) as [a1|] eqn:E1; [|discriminate].
    destruct (to_numeric_all parse_number (map i_liquidado l)) as [amounts'|] eqn:El;
      [|discriminate].
    intros [= <-]. specialize (IH amounts' eq_refl).
    simpl. unfold dropna in *.
    destruct a1 as [v|]; simpl.
    + rewrite IH. split.
      * intros [<-|(r0 & a & Hin & Ha & ->)]; [exists r1, v | exists r0, a]; auto.
      * intros (r0 & a & [<-|Hin] & Ha & ->).
        -- left. congruence.
        -- right. eauto.
    + rewrite IH. split.
      * intros (r0 & a & Hin & Ha & ->). exists r0, a. auto.
      * intros (r0 & a & [<-|Hin] & Ha & ->); [congruence | eauto].
Qed.

Lemma In_numeric_patient_data (l data : list Row) (r : Row) :
  numeric_patient_data parse_number l = Some data ->
  (In r data <->
   exists r0 a, In r0 l /\ to_numeric_cell parse_number (i_liquidado r0) = Some (Some a)
                /\ r = set_amount r0 (Some a)).
Proof.
  unfold numeric_patient_data.
  destruct (to_numeric_all parse_number (map i_liquidado l)) as [amounts|] eqn:E;
    [|discriminate].
  intros [= <-]. unfold sort_values. rewrite In_sort_by.
  now apply In_kept_rows.
Qed.

Lemma kept_rows_sum (l : list Row) (amounts : list (option Z)) :
  to_numeric_all parse_number (map i_liquidado l) = Some amounts ->
  sum_Z (map amount_of (dropna (assign_amounts l amounts)))
  = sum_Z (present_amounts amounts).
Proof.
  revert amounts. induction l as [|r1 l IH]; intros amounts.
  - simpl. now intros [= <-].
  - simpl map. rewrite to_numeric_all_cons.
    destruct (to_numeric_cell parse_number (i_liquidado r1)) as [a1|]; [|discriminate].
    destruct (to_numeric_all parse_number (map i_liquidado l)) as [amounts'|]; [|discriminate].
    intros [= <-]. specialize (IH amounts' eq_refl).
    unfold dropna in *. destruct a1 as [v|]; simpl; rewrite IH; reflexivity.
Qed.

(** The total of the cells alone. *)
Definition cells_total (cells : list amount_cell) : option Z :=
  option_map (fun amounts => sum_Z (present_amounts amounts))
             (to_numeric_all parse_number cells).

Lemma compute_total_cells (l : list Row) :
  compute_total parse_number l = cells_total (map i_liquidado l).
Proof.
  unfold compute_total, numeric_patient_data, cells_total.
  destruct (to_numeric_all parse_number (map i_liquidado l)) as [amounts|] eqn:E;
    [|reflexivity].
  simpl. f_equal.
  rewrite <- (kept_rows_sum l amounts E).
  apply sum_Z_perm, Permutation_map, sort_values_perm.
Qed.

End PandasFacts.

(** A patient row with the given date, product, amount cell and file. *)
Definition sample_row (date : option Z) (product : string)
           (amount : amount_cell) (file : string) : Row :=
  mkRow (Some "L-Doe") (Some "P") date (Some product) amount file.

(** The part of C7 that holds: when every cell reads as a number or as
    NaN, the total is the sum of the numbers, the NaN rows left out. *)
Lemma compute_total_skips_null (parse_number : string -> option (option Z))
      (l : list Row) (amounts : list (option Z)) :
  to_numeric_all parse_number (map i_liquidado l) = Some amounts ->
  compute_total parse_number l = Some (sum_Z (present_amounts amounts)).
Proof.
  intros E. rewrite compute_total_cells. unfold cells_total. now rewrite E.
Qed.

(** C7 at its failing inputs.  As soon as one amount cell of a patient is a
    text that does not read as a number, nothing is excluded: the program
    has no numeric total to print, and the exception raised while printing
    it ends the report before the gap analysis. *)
Theorem unparseable_amount_raises
        (parse_number : string -> option (option Z))
        (df_filtered : list Row) (p : option string) (r : Row) :
  In r df_filtered -> cell_eqb (paciente r) p = true ->
  to_numeric_cell parse_number (i_liquidado r) = None ->
  let patient_rows := filter (fun r => cell_eqb (paciente r) p) df_filtered in
  compute_total parse_number patient_rows = None
  /\ patient_missing_days parse_number patient_rows = None
  /\ patient_report parse_number df_filtered p = None.
Proof.
  intros Hin Hp Hc patient_rows.
  assert (E : to_numeric_all parse_number (map i_liquidado patient_rows) = None).
  { apply (to_numeric_all_fails parse_number _ (i_liquidado r)); [|exact Hc].
    apply in_map, filter_In. auto. }
  unfold compute_total, patient_missing_days, patient_report,
    numeric_patient_data.
  fold patient_rows. now rewrite E.
Qed.

Definition sample_text_amount_rows : list Row :=
  [sample_row (Some (Time.midnight 19723)) "CONSULTA" (AText "12") "a.xlsx";
   sample_row (Some (Time.midnight 19724)) "CONSULTA" (AText "abc") "a.xlsx"].

Lemma unparseable_amount_raises_witness :
  compute_total read_integer sample_text_amount_rows = None
  /\ patient_report read_integer sample_text_amount_rows (Some "P") = None.
Proof.
  pose proof (unparseable_amount_raises read_integer
                sample_text_amount_rows (Some "P")
                (sample_row (Some (Time.midnight 19724)) "CONSULTA"
                            (AText "abc") "a.xlsx")
                ltac:(simpl; auto) eq_refl eq_refl) as (H1 & _ & H3).
  split; [exact H1 | exact H3].
Defined.

(** ** The patient total and the order of the rows *)

Lemma fold_left_perm {A : Type} (add : A -> A -> A) (l l' : list A) :
  (forall x y z, add (add x y) z = add x (add y z)) ->
  (forall x y, add x y = add y x) ->
  Permutation l l' ->
  forall z, fold_left add l z = fold_left add l' z.
Proof.
  intros Hassoc Hcomm. induction 1 as [| x l l' _ IH | x y l | l l' l'' _ IH1 _ IH2];
    intros z; simpl.
  - reflexivity.
  - apply IH.
  - f_equal. rewrite !Hassoc. f_equal. apply Hcomm.
  - now rewrite IH1.
Qed.

Lemma filter_perm {A : Type} (p : A -> bool) (l l' : list A) :
  Permutation l l' -> Permutation (filter p l) (filter p l').
Proof.
  induction 1 as [| x l l' _ IH | x y l | l l' l'' _ IH1 _ IH2]; simpl.
  - constructor.
  - destruct (p x); [now constructor | assumption].
  - destruct (p x), (p y); try reflexivity. apply perm_swap.
  - now transitivity (filter p l').
Qed.

Lemma filter_map_commute {A : Type} (p : A -> bool) (f : A -> A) (l : list A) :
  (forall x, p (f x) = p x) -> filter p (map f l) = map f (filter p l).
Proof.
  intros H. induction l as [|x l IH]; simpl; [reflexivity|].
  rewrite H. destruct (p x); simpl; now rewrite IH.
Qed.

Lemma num_values_perm {num : Type} (l l' : list (NumRow num)) :
  Permutation l l' -> Permutation (num_values l) (num_values l').
Proof.
  induction 1 as [| x l l' _ IH | x y l | l l' l'' _ IH1 _ IH2]; simpl.
  - constructor.
  - destruct (num_amount x); [now constructor | assumption].
  - destruct (num_amount x), (num_amount y); try reflexivity. apply perm_swap.
  - now transitivity (num_values l').
Qed.

Lemma num_values_map {num : Type} (f : NumRow num -> NumRow num)
  (l : list (NumRow num)) :
  (forall r, num_amount (f r) = num_amount r) ->
  num_values (map f l) = num_values l.
Proof.
  intros H. induction l as [|r l IH]; simpl; [reflexivity|].
  now rewrite H, IH.
Qed.

Lemma date_leb_antisym (a b : option Z) :
  date_leb a b = true -> date_leb b a = true -> a = b.
Proof.
  destruct a as [x|], b as [y|]; simpl; try discriminate; try reflexivity.
  intros H1 H2. apply Z.leb_le in H1, H2. f_equal. lia.
Qed.

Lemma date_leb_total (a b : option Z) :
  date_leb a b = true \/ date_leb b a = true.
Proof.
  destruct a as [x|], b as [y|]; simpl; auto.
  destruct (Z.leb_spec x y); [now left|]. right. apply Z.leb_le. lia.
Qed.

Lemma date_leb_trans (a b c : option Z) :
  date_leb a b = true -> date_leb b c = true -> date_leb a c = true.
Proof.
  destruct a as [x|], b as [y|], c as [z|]; simpl; try discriminate; auto.
  intros H1 H2. apply Z.leb_le in H1, H2. apply Z.leb_le. lia.
Qed.

(** The rows in date order, as a relation on rows. *)
Definition date_ordered {num : Type} (a b : NumRow num) : Prop :=
  date_leb (num_date a) (num_date b) = true.

(** What every sort by date does: it returns the rows it was given, in
    date order, and looks at nothing but the dates. *)
Definition sorts_by_date {num : Type}
  (sort_rows : list (NumRow num) -> list (NumRow num)) : Prop :=
  (forall l, Permutation (sort_rows l) l)
  /\ (forall l, StronglySorted date_ordered (sort_rows l))
  /\ (forall (f : NumRow num -> NumRow num) l,
        (forall r, num_date (f r) = num_date r) ->
        sort_rows (map f l) = map f (sort_rows l)).

(** Two date-ordered lists of the same rows are equal when no two rows
    have the same date. *)
Lemma date_ordered_unique {num : Type} (l1 l2 : list (NumRow num)) :
  StronglySorted date_ordered l1 -> StronglySorted date_ordered l2 ->
  Permutation l1 l2 -> NoDup (map num_date l1) -> l1 = l2.
Proof.
  intros S1. revert l2. induction S1 as [|a t1 S1 IH Ha]; intros l2 S2 Hp ND.
  - apply Permutation_nil in Hp. now subst.
  - destruct l2 as [|b t2].
    { apply Permutation_sym, Permutation_nil in Hp. discriminate Hp. }
    inversion S2 as [|? ? S2' Hb]; subst.
    inversion ND as [|? ? Hnot ND']; subst.
    rewrite Forall_forall in Ha, Hb.
    assert (Eab : a = b).
    { assert (Hina : In a (b :: t2))
        by (apply (Permutation_in _ Hp); now left).
      destruct Hina as [E|Hina]; [now symmetry|].
      assert (Hinb : In b (a :: t1))
        by (apply (Permutation_in _ (Permutation_sym Hp)); now left).
      destruct Hinb as [E|Hinb]; [assumption|].
      exfalso. apply Hnot.
      rewrite (date_leb_antisym _ _ (Ha b Hinb) (Hb a Hina)).
      now apply in_map. }
    subst b. f_equal. apply IH; [assumption | | assumption].
    now apply Permutation_cons_inv in Hp.
Qed.

Lemma insert_by_date_sorted {num : Type} (x : NumRow num)
  (l : list (NumRow num)) :
  StronglySorted date_ordered l ->
  StronglySorted date_ordered
    (insert_by (fun a b => date_leb (num_date a) (num_date b)) x l).
Proof.
  induction 1 as [|y l S IH Hy]; simpl.
  - constructor; constructor.
  - destruct (date_leb (num_date x) (num_date y)) eqn:E.
    + constructor; [now constructor|].
      constructor; [exact E|].
      rewrite Forall_forall in Hy |- *. intros z Hz.
      exact (date_leb_trans _ _ _ E (Hy z Hz)).
    + constructor; [assumption|].
      rewrite Forall_forall in Hy |- *. intros z Hz.
      apply (Permutation_in _ (insert_by_perm _ x l)) in Hz.
      destruct Hz as [<-|Hz]; [|now apply Hy].
      unfold date_ordered.
      destruct (date_leb_total (num_date x) (num_date y)); congruence.
Qed.

Lemma insert_by_date_map {num : Type} (f : NumRow num -> NumRow num)
  (x : NumRow num) (l : list (NumRow num)) :
  (forall r, num_date (f r) = num_date r) ->
  insert_by (fun a b => date_leb (num_date a) (num_date b)) (f x) (map f l)
  = map f (insert_by (fun a b => date_leb (num_date a) (num_date b)) x l).
Proof.
  intros H. induction l as [|y l IH]; simpl; [reflexivity|].
  rewrite !H. destruct (date_leb (num_date x) (num_date y)); simpl;
    [reflexivity | now rewrite IH].
Qed.

Lemma insertion_sort_sorts_by_date (num : Type) :
  sorts_by_date (@insertion_sort_rows num).
Proof.
  unfold insertion_sort_rows. split; [|split].
  - intros l. apply sort_by_perm.
  - induction l as [|x l IH]; simpl; [constructor|].
    now apply insert_by_date_sorted.
  - intros f l H. induction l as [|x l IH]; [reflexivity|].
    set (leb := fun a b : NumRow num => date_leb (num_date a) (num_date b)) in *.
    change (insert_by leb (f x) (sort_by leb (map f l))
            = map f (insert_by leb x (sort_by leb l))).
    rewrite IH. now apply insert_by_date_map.
Qed.

(** C8 (as the program has it).  Whatever the dtype of the column, the
    sort and the sum: the total does not depend on the files the rows are
    tagged with, and it does not depend on the order of the rows when no
    two kept rows have the same date.  When the sum adds in row order with
    an addition that is associative and commutative (an integer column),
    the total does not depend on the order of the rows at all. *)
Theorem patient_total_invariance
  (num : Type) (sort_rows : list (NumRow num) -> list (NumRow num))
  (reduce : list num -> num) :
  sorts_by_date sort_rows ->
  (forall (tag : NumRow num -> string) rows,
      patient_total sort_rows reduce (map (retag tag) rows)
      = patient_total sort_rows reduce rows)
  /\ (forall rows rows',
        Permutation rows rows' ->
        NoDup (map num_date (filter num_notna rows)) ->
        patient_total sort_rows reduce rows
        = patient_total sort_rows reduce rows')
  /\ (forall (add : num -> num -> num) (zero : num),
        (forall x y z, add (add x y) z = add x (add y z)) ->
        (forall x y, add x y = add y x) ->
        (forall values, reduce values = column_sum add zero values) ->
        forall rows rows',
          Permutation rows rows' ->
          patient_total sort_rows reduce rows
          = patient_total sort_rows reduce rows').
Proof.
  intros (Hperm & Hsorted & Hdates). unfold patient_total.
  assert (Hkept : forall rows rows',
            Permutation rows rows' ->
            Permutation (sort_rows (filter num_notna rows))
                        (sort_rows (filter num_notna rows'))).
  { intros rows rows' H. rewrite (Hperm (filter num_notna rows)).
    rewrite (Hperm (filter num_notna rows')). now apply filter_perm. }
  split; [|split].
  - intros tag rows.
    rewrite (filter_map_commute num_notna (retag tag)) by reflexivity.
    rewrite (Hdates (retag tag)) by reflexivity.
    now rewrite (num_values_map (retag tag)) by reflexivity.
  - intros rows rows' H ND. do 2 f_equal.
    apply date_ordered_unique; auto.
    apply (Permutation_NoDup (l := map num_date (filter num_notna rows)));
      [|assumption].
    apply Permutation_map, Permutation_sym, Hperm.
  - intros add zero Hassoc Hcomm Hred rows rows' H.
    rewrite !Hred. unfold column_sum.
    apply (fold_left_perm add _ _ Hassoc Hcomm).
    now apply num_values_perm, Hkept.
Qed.

(** Three integer amounts of one day, in two orders and two taggings. *)
Definition sample_int_rows : list (NumRow Z) :=
  [mkNumRow (Some (Time.midnight 19723)) (Some 10) "a.xlsx";
   mkNumRow (Some (Time.midnight 19723)) None "a.xlsx";
   mkNumRow (Some (Time.midnight 19723)) (Some 7) "a.xlsx"].

Definition sample_int_rows_shuffled : list (NumRow Z) :=
  [mkNumRow (Some (Time.midnight 19723)) (Some 7) "a.xlsx";
   mkNumRow (Some (Time.midnight 19723)) (Some 10) "a.xlsx";
   mkNumRow (Some (Time.midnight 19723)) None "a.xlsx"].

Lemma patient_total_invariance_witness :
  patient_total insertion_sort_rows (column_sum Z.add 0) sample_int_rows
  = patient_total insertion_sort_rows (column_sum Z.add 0)
                  sample_int_rows_shuffled
  /\ patient_total insertion_sort_rows (column_sum Z.add 0)
                   (map (retag (fun _ => "b.xlsx")) sample_int_rows)
     = patient_total insertion_sort_rows (column_sum Z.add 0) sample_int_rows.
Proof.
  destruct (patient_total_invariance Z insertion_sort_rows (column_sum Z.add 0)
              (insertion_sort_sorts_by_date Z)) as (Htag & _ & Hany).
  split; [|apply Htag].
  apply (Hany Z.add 0 (fun x y z => eq_sym (Z.add_assoc x y z)) Z.add_comm
               (fun _ => eq_refl)).
  unfold sample_int_rows, sample_int_rows_shuffled.
  apply Permutation_sym, Permutation_cons_app with (l1 := [_; _]) (l2 := []).
  reflexivity.
Defined.

(** The three amounts 0.1, 0.2 and 0.3 of one day as binary64 values (the
    nearest ones), in one file, in two orders. *)
Definition sample_float_rows : list (NumRow float) :=
  [mkNumRow (Some (Time.midnight 19723)) (Some 0x1.999999999999ap-4%float) "a.xlsx";
   mkNumRow (Some (Time.midnight 19723)) (Some 0x1.999999999999ap-3%float) "a.xlsx";
   mkNumRow (Some (Time.midnight 19723)) (Some 0x1.3333333333333p-2%float) "a.xlsx"].

Definition sample_float_rows_reversed : list (NumRow float) :=
  rev sample_float_rows.

(** C8 as stated fails in the arithmetic of a float column: the same three
    rows in the opposite order have another total, since binary64 addition
    rounds and so is not associative ((0.1 + 0.2) + 0.3 against
    (0.3 + 0.2) + 0.1). *)
Lemma float_total_order_counterexample :
  Permutation sample_float_rows sample_float_rows_reversed
  /\ patient_total insertion_sort_rows (column_sum PrimFloat.add 0%float)
                   sample_float_rows
     <> patient_total insertion_sort_rows (column_sum PrimFloat.add 0%float)
                      sample_float_rows_reversed.
Proof.
  split; [apply Permutation_rev|].
  intros H.
  assert (E : PrimFloat.eqb
                (patient_total insertion_sort_rows
                   (column_sum PrimFloat.add 0%float) sample_float_rows)
                (patient_total insertion_sort_rows
                   (column_sum PrimFloat.add 0%float) sample_float_rows_reversed)
              = false) by (vm_compute; reflexivity).
  rewrite H in E. vm_compute in E. discriminate E.
Qed.

(** What lines 70 and 80 do for an amount that reads as NaN (the empty
    text): its row never reaches the gap analysis, so a calendar day [d] on
    which every selected row of the patient has such an amount, lying
    between two days that keep a selected row, is listed among the
    patient's missing days. *)
Lemma nan_amount_day_reported_missing
        (parse_number : string -> option (option Z))
        (df_filtered : list Row) (p : option string) (rep : PatientReport)
        (d : Z) :
  patient_report parse_number df_filtered p = Some rep ->
  let patient_rows := filter (fun r => cell_eqb (paciente r) p) df_filtered in
  (forall r t, In r patient_rows -> is_ingreso_no_quir r = true ->
               f_actividad r = Some t -> Time.day_of t = d ->
               to_numeric_cell parse_number (i_liquidado r) = Some None) ->
  (exists r t a, In r patient_rows /\ is_ingreso_no_quir r = true
                 /\ f_actividad r = Some t /\ Time.day_of t < d
                 /\ to_numeric_cell parse_number (i_liquidado r) = Some (Some a)) ->
  (exists r t a, In r patient_rows /\ is_ingreso_no_quir r = true
                 /\ f_actividad r = Some t /\ d < Time.day_of t
                 /\ to_numeric_cell parse_number (i_liquidado r) = Some (Some a)) ->
  In (Time.format_day d) (missing_days rep).
Proof.
  intros Hrep patient_rows Hnull
         (rb & tb & ab & Hrb & Hsb & Eb & Hdb & Hab)
         (ra & ta & aa & Hra & Hsa & Ea & Hda & Haa).
  unfold patient_report in Hrep. fold patient_rows in Hrep.
  destruct (numeric_patient_data parse_number patient_rows) as [data|] eqn:Hdata;
    [|discriminate].
  injection Hrep as <-. simpl.
  pose proof (In_numeric_patient_data parse_number patient_rows data) as Hrows.
  assert (Hpres : forall t, In t (present_dates data) <->
            exists r0 a, In r0 patient_rows
                         /\ to_numeric_cell parse_number (i_liquidado r0)
                            = Some (Some a)
                         /\ is_ingreso_no_quir r0 = true
                         /\ f_actividad r0 = Some t).
  { intros t. rewrite In_present_dates. split.
    - intros (r & Hr & Hs & E). apply (Hrows r Hdata) in Hr
        as (r0 & a & Hr0 & Ha & ->). exists r0, a. auto.
    - intros (r0 & a & Hr0 & Ha & Hs & E). exists (set_amount r0 (Some a)).
      split; [|auto]. apply (Hrows _ Hdata). eauto. }
  assert (Hb : In tb (present_dates data)) by (apply Hpres; eauto 8).
  assert (Ha : In ta (present_dates data)) by (apply Hpres; eauto 8).
  assert (Hlen : (2 <= List.length (present_dates data))%nat).
  { apply (two_members_length _ tb ta Hb Ha). intros ->. lia. }
  destruct (present_bounds data ltac:(lia)) as (Hmin & Hmax & Hbounds).
  set (lo := Time.index_min (present_dates data)) in *.
  set (hi := Time.index_max (present_dates data)) in *.
  pose proof (day_of_mono _ _ (proj1 (Hbounds _ Hb))) as Hlo.
  pose proof (day_of_mono _ _ (proj2 (Hbounds _ Ha))) as Hhi.
  set (k := Z.to_nat (d - Time.day_of lo)).
  set (t := lo + Z.of_nat k * Time.DAY).
  assert (Hday : Time.day_of t = d).
  { unfold t. rewrite day_of_step. unfold k. rewrite Z2Nat.id; lia. }
  unfold find_missing_dates. apply in_map_iff. exists t. split.
  - unfold Time.strftime. now rewrite Hday.
  - apply (In_missing_timestamps data Hlen). fold lo hi. split.
    + exists k. split; [reflexivity|].
      destruct (Z.le_gt_cases t hi) as [Hle|Hgt]; [exact Hle|].
      pose proof (day_of_mono hi t ltac:(lia)). lia.
    + intros Hin. apply Hpres in Hin as (r0 & a & Hr0 & Ha0 & Hs0 & E0).
      rewrite (Hnull r0 t Hr0 Hs0 E0 Hday) in Ha0. discriminate.
Qed.

(** C10 at its failing inputs.  An empty amount cell does not read as
    NaN: line 69 makes it the text "nan" before the conversion, and for a
    reader that does not take that text the cell is one more text that is
    no number.  No row is dropped, the total cannot be printed, and the run
    ends on line 77, before the gap analysis of line 80: no day is reported
    missing. *)
Theorem empty_amount_cell_raises
        (parse_number : string -> option (option Z))
        (df_filtered : list Row) (p : option string) (r : Row) :
  parse_number "nan" = None ->
  In r df_filtered -> cell_eqb (paciente r) p = true ->
  i_liquidado r = ANull ->
  let patient_rows := filter (fun r => cell_eqb (paciente r) p) df_filtered in
  numeric_patient_data parse_number patient_rows = None
  /\ patient_missing_days parse_number patient_rows = None
  /\ patient_report parse_number df_filtered p = None.
Proof.
  intros Hnan Hin Hp Hcell patient_rows.
  assert (E : to_numeric_all parse_number (map i_liquidado patient_rows) = None).
  { apply (to_numeric_all_fails parse_number _ (i_liquidado r)).
    - apply in_map, filter_In. auto.
    - rewrite Hcell. exact Hnan. }
  unfold patient_missing_days, patient_report, numeric_patient_data.
  fold patient_rows. now rewrite E.
Qed.

(** Selected rows on 1, 2 and 3 January 2024; the row of 2 January has
    an empty amount cell. *)
Definition sample_null_day_rows : list Row :=
  [sample_row (Some (Time.midnight 19723)) "INGRESO NO QUIR. A" (ANum 10) "a.xlsx";
   sample_row (Some (Time.midnight 19724)) "INGRESO NO QUIR. A" ANull "a.xlsx";
   sample_row (Some (Time.midnight 19725)) "INGRESO NO QUIR. A" (ANum 10) "a.xlsx"].

Lemma empty_amount_cell_raises_witness :
  patient_missing_days read_integer sample_null_day_rows = None
  /\ patient_report read_integer sample_null_day_rows (Some "P") = None.
Proof.
  pose proof (empty_amount_cell_raises read_integer sample_null_day_rows
                (Some "P")
                (sample_row (Some (Time.midnight 19724)) "INGRESO NO QUIR. A"
                            ANull "a.xlsx")
                eq_refl ltac:(simpl; auto) eq_refl eq_refl) as (_ & H2 & H3).
  split; [exact H2 | exact H3].
Defined.

(** ** The schema check *)

Lemma In_missing_columns (df : DataFrame) (col : string) :
  In col (missing_columns df)
  <-> In col required_columns /\ ~ In col (columns df).
Proof.
  unfold missing_columns.
  rewrite filter_In, negb_true_iff, (mem_false String.eqb string_eqb_spec).
  reflexivity.
Qed.

Lemma required_check_fails (df : DataFrame) :
  (exists col, In col required_columns /\ ~ In col (columns df)) ->
  forallb (fun col => mem String.eqb col (columns df)) required_columns = false.
Proof.
  intros (col & Hreq & Hnot).
  destruct (forallb _ required_columns) eqn:E; [|reflexivity].
  exfalso. apply Hnot.
  apply (mem_In String.eqb string_eqb_spec).
  now apply (proj1 (forallb_forall _ _) E).
Qed.

(** C9 (as the program has it).  When a required column is missing, a
    dataset with at least one row and one column is rejected with the error
    that lists exactly the missing columns; a dataset with no row is
    dismissed earlier, with the empty-sheet warning.  Either way no patient
    is reported. *)
Theorem missing_column_aborts
        (parse_number : string -> option (option Z))
        (re_compile : string -> option (string -> bool))
        (df : DataFrame) (person : option string) :
  (exists col, In col required_columns /\ ~ In col (columns df)) ->
  (empty df = true ->
   process_data parse_number re_compile df person = EmptySheetWarning)
  /\ (empty df = false ->
      process_data parse_number re_compile df person
      = MissingColumnsError (missing_columns df)
      /\ forall col, In col (missing_columns df)
                     <-> In col required_columns /\ ~ In col (columns df)).
Proof.
  intros Hmiss. unfold process_data. split; intros ->; [reflexivity|].
  rewrite (required_check_fails df Hmiss). simpl.
  split; [reflexivity | apply In_missing_columns].
Qed.

(** A dataset without the product and amount columns. *)
Definition sample_short_df : DataFrame :=
  mkDataFrame
    [col_liquidacion; col_paciente; col_f_actividad; col_source_file]
    [sample_row (Some (Time.midnight 19723)) "CONSULTA" (ANum 10) "a.xlsx"].

(** What an uploaded workbook whose second sheet is blank contributes:
    the tag column and no row. *)
Definition sample_blank_df : DataFrame := mkDataFrame [col_source_file] [].

Lemma missing_column_aborts_witness :
  process_data read_integer (fun _ => Some (fun _ => true)) sample_short_df (Some "Doe")
  = MissingColumnsError [col_producto; col_i_liquidado]
  /\ process_data read_integer (fun _ => Some (fun _ => true)) sample_blank_df None
     = EmptySheetWarning.
Proof.
  split.
  - refine (proj1 (proj2 (missing_column_aborts read_integer (fun _ => Some (fun _ => true))
                            sample_short_df (Some "Doe") _) eq_refl)).
    exists col_producto. split; [simpl; auto|].
    simpl. intros [H|[H|[H|[H|[]]]]]; discriminate H.
  - refine (proj1 (missing_column_aborts read_integer (fun _ => Some (fun _ => true))
                     sample_blank_df None _) eq_refl).
    exists col_producto. split; [simpl; auto|].
    simpl. intros [H|[]]; discriminate H.
Defined.

(** C9 as stated fails on a dataset with no row: five required columns
    are missing, and the program reports the empty sheet, not the missing
    columns. *)
Lemma empty_dataset_counterexample :
  (exists col, In col required_columns
               /\ ~ In col (columns sample_blank_df))
  /\ process_data read_integer (fun _ => Some (fun _ => true)) sample_blank_df None
     = EmptySheetWarning
  /\ forall missing,
       process_data read_integer (fun _ => Some (fun _ => true)) sample_blank_df None
       <> MissingColumnsError missing.
Proof.
  split; [|split; [reflexivity | discriminate]].
  exists col_producto. split; [simpl; auto|].
  simpl. intros [H|[]]; discriminate H.
Qed.

(** ** Unusual payments and cross-file dates *)

(** The money of one day: the sum over the rows of that date. *)
Definition day_money (modality_data : list Row) (d : Z) : Z :=
  sum_Z (map amount_of (filter (on_date d) modality_data)).

(** The number of distinct files among the rows of one date. *)
Definition day_files (modality_data : list Row) (d : Z) : nat :=
  List.length (unique String.eqb
                 (map source_file (filter (on_date d) modality_data))).

(** Every date has its rows in one file. *)
Definition single_source (modality_data : list Row) : Prop :=
  forall r1 r2 d,
    In r1 modality_data -> In r2 modality_data ->
    f_actividad r1 = Some d -> f_actividad r2 = Some d ->
    source_file r1 = source_file r2.

(** The date [d] has rows from more than one file. *)
Definition multi_source_date (modality_data : list Row) (d : Z) : Prop :=
  exists r1 r2,
    In r1 modality_data /\ In r2 modality_data
    /\ f_actividad r1 = Some d /\ f_actividad r2 = Some d
    /\ source_file r1 <> source_file r2.

Definition entry_date (e : Z * option Z * reason) : Z := fst (fst e).

Lemma on_date_spec (d : Z) (r : Row) :
  on_date d r = true <-> f_actividad r = Some d.
Proof. apply date_same_spec. Qed.

Lemma In_group_keys (l : list Row) (d : Z) :
  In d (group_keys l) <-> exists r, In r l /\ f_actividad r = Some d.
Proof.
  unfold group_keys.
  rewrite In_sort_by, (In_unique Z.eqb Z.eqb_eq), In_dropna_dates, in_map_iff.
  split; intros (r & H1 & H2); eauto.
Qed.

Lemma NoDup_group_keys (l : list Row) : NoDup (group_keys l).
Proof.
  unfold group_keys.
  eapply Permutation_NoDup; [symmetry; apply sort_by_perm|].
  apply (NoDup_unique Z.eqb Z.eqb_eq).
Qed.

Lemma money_per_day_keys (l : list Row) :
  map fst (money_per_day l) = group_keys l.
Proof.
  unfold money_per_day. rewrite map_map. simpl. apply map_id.
Qed.

Lemma In_money_per_day (l : list Row) (d a : Z) :
  In (d, a) (money_per_day l) <-> In d (group_keys l) /\ a = day_money l d.
Proof.
  unfold money_per_day. rewrite in_map_iff. split.
  - intros (d' & [= <- <-] & H). auto.
  - intros [H ->]. exists d. auto.
Qed.

Lemma money_per_day_values (l : list Row) :
  map snd (money_per_day l) = map (day_money l) (group_keys l).
Proof.
  unfold money_per_day. rewrite map_map. reflexivity.
Qed.

Lemma series_get_In {V : Type} (s : list (Z * V)) (k : Z) (v : V) :
  NoDup (map fst s) -> In (k, v) s -> series_get s k = Some v.
Proof.
  induction s as [|[k' v'] s IH]; simpl; intros ND Hin; [destruct Hin|].
  inversion ND as [|? ? Hnot ND']; subst.
  destruct Hin as [[= -> ->]|Hin].
  - now rewrite Z.eqb_refl.
  - destruct (Z.eqb_spec k' k) as [->|_]; [|auto].
    exfalso. apply Hnot. apply in_map_iff. now exists (k, v).
Qed.

Lemma series_get_absent {V : Type} (s : list (Z * V)) (k : Z) :
  ~ In k (map fst s) -> series_get s k = None.
Proof.
  induction s as [|[k' v'] s IH]; simpl; intros Hnot; [reflexivity|].
  destruct (Z.eqb_spec k' k) as [->|_]; [tauto | auto].
Qed.

(** Filtering a series keeps its keys distinct. *)
Lemma NoDup_map_filter {K V : Type} (key : V -> K) (keep : V -> bool)
      (s : list V) (ND : NoDup (map key s)) :
  NoDup (map key (filter keep s)).
Proof.
  induction s as [|e s IH]; simpl in *; [constructor|].
  inversion ND as [|? ? Hnot ND']; subst.
  destruct (keep e); simpl; [constructor|]; auto.
  intros Hin. apply Hnot. apply in_map_iff in Hin as (y & E & Hy).
  apply filter_In in Hy as [Hy _]. apply in_map_iff. eauto.
Qed.

Lemma filter_none {A : Type} (p : A -> bool) (l : list A) :
  (forall y, In y l -> p y = false) -> filter p l = [].
Proof.
  induction l as [|y l IH]; simpl; intros H; [reflexivity|].
  rewrite (H y (or_introl eq_refl)). apply IH. auto.
Qed.

(** In a series with distinct keys, a test that holds for one entry and
    fails for every other key keeps that entry alone. *)
Lemma filter_single {V : Type} (p : Z * V -> bool) (s : list (Z * V))
      (x : Z * V) :
  NoDup (map fst s) -> In x s -> p x = true ->
  (forall y, In y s -> fst y <> fst x -> p y = false) ->
  filter p s = [x].
Proof.
  induction s as [|y s IH]; simpl; intros ND Hin Hx Hother; [destruct Hin|].
  inversion ND as [|? ? Hnot ND']; subst.
  destruct Hin as [->|Hin].
  - rewrite Hx. f_equal. apply filter_none.
    intros z Hz. apply Hother; [now right|].
    intros E. apply Hnot. rewrite <- E. now apply in_map.
  - assert (Hy : fst y <> fst x).
    { intros E. apply Hnot. rewrite E. now apply in_map. }
    rewrite (Hother y (or_introl eq_refl) Hy). apply IH; auto.
Qed.

Lemma In_index_union (a b : list Z) (x : Z) :
  In x (index_union a b) <-> In x a \/ In x b.
Proof.
  unfold index_union.
  rewrite in_app_iff, filter_In, (In_unique Z.eqb Z.eqb_eq), negb_true_iff,
    (mem_false Z.eqb Z.eqb_eq).
  destruct (in_dec Z.eq_dec x a); tauto.
Qed.

Lemma NoDup_index_union (a b : list Z) : NoDup a -> NoDup (index_union a b).
Proof.
  intros ND. unfold index_union. apply NoDup_app; [exact ND | |].
  - apply NoDup_filter, (NoDup_unique Z.eqb Z.eqb_eq).
  - intros x Hx Hx'. apply filter_In in Hx' as [_ Hx'].
    apply negb_true_iff, (mem_false Z.eqb Z.eqb_eq) in Hx'. auto.
Qed.

Lemma cross_file_dates_unfold (l : list Row) :
  cross_file_dates l
  = filter (fun dn => (1 <? snd dn)%nat)
           (map (fun d => (d, day_files l d)) (group_keys l)).
Proof. reflexivity. Qed.

Lemma day_files_multi (l : list Row) (d : Z) :
  (1 < day_files l d)%nat <-> multi_source_date l d.
Proof.
  unfold day_files, multi_source_date. split.
  - intros H. apply (two_unique String.eqb string_eqb_spec) in H
      as (x & y & Hx & Hy & Hxy).
    apply in_map_iff in Hx as (r1 & <- & H1). apply filter_In in H1 as [H1 E1].
    apply in_map_iff in Hy as (r2 & <- & H2). apply filter_In in H2 as [H2 E2].
    apply on_date_spec in E1, E2. exists r1, r2. auto.
  - intros (r1 & r2 & H1 & H2 & E1 & E2 & Hne).
    apply (unique_two String.eqb string_eqb_spec (source_file r1) (source_file r2));
      [| |exact Hne]; apply in_map, filter_In; split; auto;
      now apply on_date_spec.
Qed.

Lemma NoDup_cross_file_dates (l : list Row) :
  NoDup (map fst (cross_file_dates l)).
Proof.
  rewrite cross_file_dates_unfold. apply NoDup_map_filter.
  rewrite map_map. simpl. rewrite map_id. apply NoDup_group_keys.
Qed.

Lemma In_cross_file_dates (l : list Row) (d : Z) (n : nat) :
  In (d, n) (cross_file_dates l)
  <-> n = day_files l d /\ multi_source_date l d.
Proof.
  rewrite cross_file_dates_unfold, filter_In, in_map_iff. simpl. split.
  - intros [(d' & [= <- <-] & Hk) Hn]. split; [reflexivity|].
    apply day_files_multi. now apply Nat.ltb_lt.
  - intros [-> Hm]. split.
    + exists d. split; [reflexivity|]. apply In_group_keys.
      destruct Hm as (r1 & _ & H1 & _ & E1 & _). eauto.
    + now apply Nat.ltb_lt, day_files_multi.
Qed.

Lemma In_cross_dates (l : list Row) (d : Z) :
  In d (map fst (cross_file_dates l)) <-> multi_source_date l d.
Proof.
  rewrite in_map_iff. split.
  - intros ([d' n] & <- & H). now apply In_cross_file_dates in H.
  - intros H. exists (d, day_files l d). split; [reflexivity|].
    now apply In_cross_file_dates.
Qed.

Lemma single_source_no_cross (l : list Row) :
  single_source l -> cross_file_dates l = [].
Proof.
  intros Hs. destruct (cross_file_dates l) as [|[d n] c] eqn:E; [reflexivity|].
  assert (H : In (d, n) (cross_file_dates l)) by (rewrite E; now left).
  apply In_cross_file_dates in H as [_ (r1 & r2 & H1 & H2 & E1 & E2 & Hne)].
  exfalso. apply Hne. exact (Hs r1 r2 d H1 H2 E1 E2).
Qed.

(** The reason shown for a flagged date. *)
Lemma reason_of_date (l : list Row) (d : Z) :
  (multi_source_date l d ->
   series_get (cross_file_dates l) d = Some (day_files l d)
   /\ (1 < day_files l d)%nat)
  /\ (~ multi_source_date l d -> series_get (cross_file_dates l) d = None).
Proof.
  split.
  - intros H. split; [|now apply day_files_multi].
    apply series_get_In; [apply NoDup_cross_file_dates|].
    now apply In_cross_file_dates.
  - intros H. apply series_get_absent. now rewrite In_cross_dates.
Qed.

(** *** The most common value *)

Lemma fold_best_spec (rest : list (Z * nat)) (first : Z * nat) :
  let best := fold_left
                (fun best x => if (snd best <? snd x)%nat then x else best)
                rest first in
  In best (first :: rest)
  /\ forall x, In x (first :: rest) -> (snd x <= snd best)%nat.
Proof.
  revert first. induction rest as [|y rest IH]; intros first; simpl.
  - split; [auto|]. intros x [<-|[]]. lia.
  - specialize (IH (if (snd first <? snd y)%nat then y else first)).
    simpl in IH. destruct IH as [Hin Hmax].
    destruct (Nat.ltb_spec (snd first) (snd y)) as [Hlt|Hge]; split.
    + destruct Hin as [<-|Hin]; auto.
    + intros x [<-|[<-|Hx]]; [|auto|auto].
      specialize (Hmax y (or_introl eq_refl)). lia.
    + destruct Hin as [<-|Hin]; auto.
    + intros x [<-|[<-|Hx]]; [auto| |auto].
      specialize (Hmax first (or_introl eq_refl)). lia.
Qed.

Lemma In_value_counts (values : list Z) (x : Z) (c : nat) :
  In (x, c) (value_counts values)
  <-> In x values /\ c = count_occ Z.eq_dec values x.
Proof.
  unfold value_counts. rewrite In_sort_by, in_map_iff. split.
  - intros (y & [= <- <-] & H).
    apply (proj1 (In_unique Z.eqb Z.eqb_eq _ _)) in H. auto.
  - intros [H ->]. exists x. split; [reflexivity|].
    now apply (In_unique Z.eqb Z.eqb_eq).
Qed.

(** The most common value is one of the daily amounts, and no daily amount
    occurs on more days. *)
Lemma most_common_value_spec (per_day : list (Z * Z)) :
  per_day <> [] ->
  exists m,
    most_common_value per_day = Some m
    /\ In m (map snd per_day)
    /\ forall x, In x (map snd per_day) ->
                 (count_occ Z.eq_dec (map snd per_day) x
                  <= count_occ Z.eq_dec (map snd per_day) m)%nat.
Proof.
  intros Hne. unfold most_common_value.
  destruct per_day as [|e per_day]; [congruence|].
  set (values := map snd (e :: per_day)).
  destruct (value_counts values) as [|first rest] eqn:E.
  - exfalso.
    assert (H : In (snd e, count_occ Z.eq_dec values (snd e)) (value_counts values)).
    { apply In_value_counts. split; [now left | reflexivity]. }
    rewrite E in H. destruct H.
  - destruct (fold_best_spec rest first) as [Hin Hmax].
    set (best := fold_left _ rest first) in *.
    rewrite <- E in Hin.
    destruct best as [m c] eqn:Eb. apply In_value_counts in Hin as [Hm Hc].
    exists m. split; [unfold idxmax; fold best; now rewrite Eb|].
    split; [exact Hm|].
    intros x Hx.
    assert (Hx' : In (x, count_occ Z.eq_dec values x) (first :: rest)).
    { rewrite <- E. apply In_value_counts. auto. }
    specialize (Hmax _ Hx'). simpl in Hmax. now rewrite <- Hc.
Qed.

Lemma count_at_most_one (f : Z -> Z) (l : list Z) (x0 : Z) (w : Z) :
  NoDup l -> (forall x, In x l -> x <> x0 -> f x <> w) ->
  (count_occ Z.eq_dec (map f l) w <= 1)%nat.
Proof.
  induction l as [|x l IH]; simpl; intros ND H; [lia|].
  inversion ND as [|? ? Hnot ND']; subst.
  destruct (Z.eq_dec (f x) w) as [E|E].
  - assert (x = x0).
    { destruct (Z.eq_dec x x0) as [|Hne]; [assumption|].
      exfalso. exact (H x (or_introl eq_refl) Hne E). }
    subst x0.
    assert (count_occ Z.eq_dec (map f l) w = 0)%nat; [|lia].
    apply count_occ_not_In. intros Hin.
    apply in_map_iff in Hin as (y & Ey & Hy).
    apply (H y (or_intror Hy)); [intros ->; auto | exact Ey].
  - apply IH; auto.
Qed.

Lemma count_at_least_two (f : Z -> Z) (l : list Z) (d1 d2 : Z) (v : Z) :
  In d1 l -> In d2 l -> d1 <> d2 -> f d1 = v -> f d2 = v ->
  (2 <= count_occ Z.eq_dec (map f l) v)%nat.
Proof.
  intros H1 H2 Hne E1 E2.
  assert (Hone : forall d l', In d l' -> f d = v ->
                   (1 <= count_occ Z.eq_dec (map f l') v)%nat).
  { intros d l' Hd Ed. apply count_occ_In. rewrite <- Ed. now apply in_map. }
  induction l as [|x l IH]; [destruct H1|].
  simpl. destruct (Z.eq_dec (f x) v) as [E|E].
  - destruct H1 as [->|H1].
    + destruct H2 as [->|H2]; [congruence|].
      specialize (Hone d2 l H2 E2). lia.
    + specialize (Hone d1 l H1 E1). lia.
  - destruct H1 as [->|H1]; [congruence|].
    destruct H2 as [->|H2]; [congruence|]. auto.
Qed.

(** With the most common value [m] known, a ledger in which one date alone
    differs from [m], every date single-sourced, has that date as its only
    flagged entry. *)
Lemma detect_single_outlier (l : list Row) (m : Z) (d0 w : Z) :
  single_source l ->
  most_common_value (money_per_day l) = Some m ->
  In (d0, w) (money_per_day l) -> w <> m ->
  (forall d a, In (d, a) (money_per_day l) -> d <> d0 -> a = m) ->
  detect_anomalous_payments l = [(d0, Some w, unusual_payment)].
Proof.
  intros Hs Hm Hin Hw Hothers.
  assert (Hweird : weird_dates_payments (money_per_day l) = [(d0, w)]).
  { unfold weird_dates_payments. rewrite Hm.
    apply filter_single.
    - rewrite money_per_day_keys. apply NoDup_group_keys.
    - exact Hin.
    - simpl. apply negb_true_iff, Z.eqb_neq. exact Hw.
    - intros [d a] Hy Hd. simpl in *. apply negb_false_iff, Z.eqb_eq.
      now apply (Hothers d a). }
  unfold detect_anomalous_payments, all_weird_dates_dt.
  rewrite Hweird, (single_source_no_cross l Hs). simpl.
  rewrite (series_get_In (money_per_day l) d0 w);
    [reflexivity | rewrite money_per_day_keys; apply NoDup_group_keys | exact Hin].
Qed.

(** C5 (as the program has it).  Every date single-sourced: when all daily
    amounts are equal nothing is flagged; when one date's amount differs
    and at least two other dates share the common amount, that date is the
    only entry, as an unusual payment; when there is exactly one other
    date, exactly one of the two dates is flagged. *)
Theorem uniform_days_then_one_outlier (l : list Row) (v : Z) :
  single_source l ->
  ((forall d a, In (d, a) (money_per_day l) -> a = v) ->
   detect_anomalous_payments l = [])
  /\ (forall d0 w,
        In (d0, w) (money_per_day l) -> w <> v ->
        (forall d a, In (d, a) (money_per_day l) -> d <> d0 -> a = v) ->
        ((exists d1 d2, d1 <> d2 /\ d1 <> d0 /\ d2 <> d0
                        /\ In d1 (group_keys l) /\ In d2 (group_keys l)) ->
         detect_anomalous_payments l = [(d0, Some w, unusual_payment)])
        /\ (forall d1, d1 <> d0 -> In d1 (group_keys l) ->
              (forall d, In d (group_keys l) -> d = d0 \/ d = d1) ->
              detect_anomalous_payments l = [(d0, Some w, unusual_payment)]
              \/ detect_anomalous_payments l = [(d1, Some v, unusual_payment)])).
Proof.
  intros Hs. split.
  - intros Hall. unfold detect_anomalous_payments, all_weird_dates_dt.
    rewrite (single_source_no_cross l Hs).
    assert (Hweird : weird_dates_payments (money_per_day l) = []).
    { unfold weird_dates_payments.
      destruct (money_per_day l) as [|e s] eqn:E; [reflexivity|].
      destruct (most_common_value_spec (e :: s) ltac:(discriminate))
        as (m & -> & Hm & _).
      apply in_map_iff in Hm as ([d a] & <- & Hda).
      apply filter_none. intros [d' a'] Hy. cbn [snd].
      apply negb_false_iff, Z.eqb_eq.
      rewrite (Hall d a Hda). now apply (Hall d' a'). }
    rewrite Hweird. reflexivity.
  - intros d0 w Hin Hw Hothers.
    assert (Hne : money_per_day l <> []) by (intros E; rewrite E in Hin; destruct Hin).
    destruct (most_common_value_spec _ Hne) as (m & Hm & Hmem & Hmax).
    assert (Hvw : m = v \/ m = w).
    { apply in_map_iff in Hmem as ([d a] & <- & Hda). simpl.
      destruct (Z.eq_dec d d0) as [->|Hd].
      - right. apply In_money_per_day in Hda as [_ ->].
        apply In_money_per_day in Hin as [_ ->]. reflexivity.
      - left. now apply (Hothers d a). }
    split.
    + intros (d1 & d2 & H12 & H10 & H20 & Hk1 & Hk2).
      assert (Ev : forall d, In d (group_keys l) -> d <> d0 -> day_money l d = v).
      { intros d Hd Hd0. apply (Hothers d); [|exact Hd0].
        now apply In_money_per_day. }
      assert (m = v); [|subst m; now apply (detect_single_outlier l v d0 w)].
      destruct Hvw as [Hmv | ->]; [assumption|]. exfalso.
      rewrite money_per_day_values in Hmax.
      assert (Hv : In v (map (day_money l) (group_keys l))).
      { apply in_map_iff. exists d1. auto. }
      specialize (Hmax v Hv).
      pose proof (count_at_least_two (day_money l) (group_keys l) d1 d2 v
                    Hk1 Hk2 H12 (Ev d1 Hk1 H10) (Ev d2 Hk2 H20)).
      pose proof (count_at_most_one (day_money l) (group_keys l) d0 w
                    (NoDup_group_keys l)
                    ltac:(intros d Hd Hd0; rewrite (Ev d Hd Hd0); congruence)).
      lia.
    + intros d1 H10 Hk1 Hkeys.
      destruct Hvw as [-> | ->].
      * left. now apply (detect_single_outlier l v d0 w).
      * right.
        assert (Hd1 : In (d1, v) (money_per_day l)).
        { apply In_money_per_day. split; [exact Hk1|]. symmetry.
          apply (Hothers d1); [|exact H10]. now apply In_money_per_day. }
        apply (detect_single_outlier l w d1 v); auto.
        intros d a Hda Hd.
        pose proof Hda as Hda'. apply In_money_per_day in Hda' as [Hk ->].
        destruct (Hkeys d Hk) as [-> | ->]; [|congruence].
        now apply In_money_per_day in Hin as [_ ->].
Qed.

(** Three single-file days: 10, 10 and 20. *)
Definition sample_outlier_rows : list Row :=
  [sample_row (Some (Time.midnight 19723)) "CONSULTA" (ANum 10) "a.xlsx";
   sample_row (Some (Time.midnight 19724)) "CONSULTA" (ANum 10) "a.xlsx";
   sample_row (Some (Time.midnight 19725)) "CONSULTA" (ANum 20) "a.xlsx"].

Lemma sample_outlier_single_source : single_source sample_outlier_rows.
Proof.
  intros r1 r2 d H1 H2 _ _. simpl in H1, H2.
  destruct H1 as [<-|[<-|[<-|[]]]]; destruct H2 as [<-|[<-|[<-|[]]]];
    reflexivity.
Qed.

Lemma uniform_days_then_one_outlier_witness :
  detect_anomalous_payments sample_outlier_rows
  = [(Time.midnight 19725, Some 20, unusual_payment)]
  /\ detect_anomalous_payments (firstn 2 sample_outlier_rows) = [].
Proof.
  split.
  - refine (proj1 (proj2 (uniform_days_then_one_outlier sample_outlier_rows 10
                            sample_outlier_single_source)
                         (Time.midnight 19725) 20 _ _ _) _).
    + vm_compute. auto.
    + discriminate.
    + intros d a H Hd. vm_compute in H, Hd.
      destruct H as [[= <- <-]|[[= <- <-]|[[= <- <-]|[]]]];
        try reflexivity. now elim Hd.
    + exists (Time.midnight 19723), (Time.midnight 19724).
      vm_compute. repeat split; try discriminate; auto.
  - refine (proj1 (uniform_days_then_one_outlier
                     (firstn 2 sample_outlier_rows) 10 _) _).
    + intros r1 r2 d H1 H2 _ _. simpl in H1, H2.
      destruct H1 as [<-|[<-|[]]]; destruct H2 as [<-|[<-|[]]]; reflexivity.
    + intros d a H. vm_compute in H.
      destruct H as [[= <- <-]|[[= <- <-]|[]]]; reflexivity.
Defined.

(** C5 as stated fails with two dates.  Both days stand at 20 and nothing
    is flagged; the first day is then changed to 10, so that it alone was
    changed; the single flagged entry is the second day.  With one day
    each, 10 and 20 are equally frequent and the first of them passes for
    the most common value.  The same final ledger is also reached from two
    days at 10 by changing the second one, so no choice between equally
    frequent values could name the changed date in both cases. *)
Lemma two_dates_counterexample :
  let d1 := Time.midnight 19723 in
  let d2 := Time.midnight 19724 in
  let before := [sample_row (Some d1) "CONSULTA" (ANum 20) "a.xlsx";
                 sample_row (Some d2) "CONSULTA" (ANum 20) "a.xlsx"] in
  let after := [sample_row (Some d1) "CONSULTA" (ANum 10) "a.xlsx";
                sample_row (Some d2) "CONSULTA" (ANum 20) "a.xlsx"] in
  money_per_day before = [(d1, 20); (d2, 20)]
  /\ cross_file_dates before = []
  /\ detect_anomalous_payments before = []
  /\ money_per_day after = [(d1, 10); (d2, 20)]
  /\ cross_file_dates after = []
  /\ most_common_value (money_per_day after) = Some 10
  /\ detect_anomalous_payments after = [(d2, Some 20, unusual_payment)]
  /\ ~ (exists money, detect_anomalous_payments after
                      = [(d1, money, unusual_payment)]).
Proof.
  repeat split. intros (money & H). vm_compute in H. discriminate H.
Qed.

Lemma In_weird_dates_payments (s : list (Z * Z)) (e : Z * Z) :
  In e (weird_dates_payments s) -> In e s.
Proof.
  unfold weird_dates_payments. destruct (most_common_value s); [|intros []].
  intros H. now apply filter_In in H.
Qed.

Lemma NoDup_weird_dates (s : list (Z * Z)) :
  NoDup (map fst s) -> NoDup (map fst (weird_dates_payments s)).
Proof.
  unfold weird_dates_payments. destruct (most_common_value s);
    [apply NoDup_map_filter | constructor].
Qed.

Lemma In_all_weird_dates (l : list Row) (d : Z) :
  In d (all_weird_dates_dt l)
  <-> In d (map fst (weird_dates_payments (money_per_day l)))
      \/ multi_source_date l d.
Proof.
  unfold all_weird_dates_dt.
  now rewrite In_sort_by, In_index_union, In_cross_dates.
Qed.

Lemma all_weird_dates_sorted (l : list Row) :
  StronglySorted Z.lt (all_weird_dates_dt l).
Proof.
  apply sort_nodup_strict, NoDup_index_union, NoDup_weird_dates.
  rewrite money_per_day_keys. apply NoDup_group_keys.
Qed.

Lemma strictly_sorted_NoDup (l : list Z) : StronglySorted Z.lt l -> NoDup l.
Proof.
  induction 1 as [|x l Hs IH Hall]; constructor; [|assumption].
  intros Hin. rewrite Forall_forall in Hall. specialize (Hall x Hin). lia.
Qed.

Lemma flagged_dates (l : list Row) :
  map entry_date (detect_anomalous_payments l) = all_weird_dates_dt l.
Proof.
  unfold detect_anomalous_payments. rewrite map_map. apply map_id.
Qed.

Lemma flagged_date_is_key (l : list Row) (d : Z) :
  In d (all_weird_dates_dt l) -> In d (group_keys l).
Proof.
  intros H. apply In_all_weird_dates in H as [H|H].
  - apply in_map_iff in H as ([d' a] & <- & H).
    apply In_weird_dates_payments, In_money_per_day in H. tauto.
  - destruct H as (r1 & _ & H1 & _ & E1 & _). apply In_group_keys. eauto.
Qed.

Lemma In_detect (l : list Row) (d : Z) (money : option Z) (rsn : reason) :
  In (d, money, rsn) (detect_anomalous_payments l)
  <-> In d (all_weird_dates_dt l)
      /\ money = Some (day_money l d)
      /\ (multi_source_date l d -> rsn = multi_source)
      /\ (~ multi_source_date l d -> rsn = unusual_payment).
Proof.
  unfold detect_anomalous_payments. rewrite in_map_iff.
  assert (Hmoney : forall x, In x (all_weird_dates_dt l) ->
            series_get (money_per_day l) x = Some (day_money l x)).
  { intros x Hx. apply series_get_In.
    - rewrite money_per_day_keys. apply NoDup_group_keys.
    - apply In_money_per_day. split; [now apply flagged_date_is_key | reflexivity]. }
  destruct (reason_of_date l d) as [Hmulti Hsingle].
  split.
  - intros (x & [= -> <- <-] & Hx). split; [exact Hx|].
    split; [now apply Hmoney|]. split; intros H.
    + destruct (Hmulti H) as [-> Hn]. apply Nat.ltb_lt in Hn. now rewrite Hn.
    + now rewrite (Hsingle H).
  - intros (Hd & -> & Hm & Hu). exists d. split; [|exact Hd].
    rewrite (Hmoney d Hd). f_equal.
    destruct (series_get (cross_file_dates l) d) as [n|] eqn:E.
    + assert (Hin : In d (map fst (cross_file_dates l))).
      { destruct (in_dec Z.eq_dec d (map fst (cross_file_dates l))) as [|Hn];
          [assumption|].
        rewrite (series_get_absent _ _ Hn) in E. discriminate. }
      apply In_cross_dates in Hin.
      destruct (Hmulti Hin) as [E' Hn]. injection E' as ->.
      apply Nat.ltb_lt in Hn. rewrite Hn. symmetry. auto.
    + simpl. symmetry. apply Hu. intros H.
      destruct (Hmulti H) as [E' _]. congruence.
Qed.

(** C6.  Every date with rows from more than one file is flagged, with the
    reason [multi_source], whatever its money; each flagged date has one
    entry, which carries [multi_source] exactly when the date has several
    files; the flagged dates are the unusual-payment dates together with
    the multi-file dates, in strictly increasing order. *)
Theorem cross_file_dates_flagged_once (l : list Row) :
  let flagged := detect_anomalous_payments l in
  (forall d, multi_source_date l d ->
             In (d, Some (day_money l d), multi_source) flagged)
  /\ (forall d money rsn, In (d, money, rsn) flagged ->
        money = Some (day_money l d)
        /\ (rsn = multi_source <-> multi_source_date l d)
        /\ (rsn = unusual_payment ->
            In d (map fst (weird_dates_payments (money_per_day l)))))
  /\ (forall d, In d (map entry_date flagged) <->
        In d (map fst (weird_dates_payments (money_per_day l)))
        \/ multi_source_date l d)
  /\ StronglySorted Z.lt (map entry_date flagged)
  /\ NoDup (map entry_date flagged).
Proof.
  intros flagged. unfold flagged. rewrite flagged_dates.
  split; [|split; [|split; [|split]]].
  - intros d Hd. apply In_detect. split; [|split; [reflexivity|split]].
    + apply In_all_weird_dates. now right.
    + reflexivity.
    + tauto.
  - intros d money rsn H. apply In_detect in H as (Hd & -> & Hm & Hu).
    split; [reflexivity|]. split; [split|].
    + intros ->. destruct (in_dec Z.eq_dec d (map fst (cross_file_dates l)))
        as [Hin|Hn].
      * now apply In_cross_dates.
      * rewrite In_cross_dates in Hn. specialize (Hu Hn). discriminate.
    + exact Hm.
    + intros ->. apply In_all_weird_dates in Hd as [Hd|Hd]; [exact Hd|].
      specialize (Hm Hd). discriminate.
  - apply In_all_weird_dates.
  - apply all_weird_dates_sorted.
  - apply strictly_sorted_NoDup, all_weird_dates_sorted.
Qed.

(** Five days of one modality: the first is split over two files and sums
    to the common 10; the fourth is split over two files and sums to 15;
    the fifth is a single-file 20. *)
Definition sample_cross_file_rows : list Row :=
  [sample_row (Some (Time.midnight 19723)) "CONSULTA" (ANum 5) "a.xlsx";
   sample_row (Some (Time.midnight 19723)) "CONSULTA" (ANum 5) "b.xlsx";
   sample_row (Some (Time.midnight 19724)) "CONSULTA" (ANum 10) "a.xlsx";
   sample_row (Some (Time.midnight 19725)) "CONSULTA" (ANum 10) "a.xlsx";
   sample_row (Some (Time.midnight 19726)) "CONSULTA" (ANum 7) "a.xlsx";
   sample_row (Some (Time.midnight 19726)) "CONSULTA" (ANum 8) "b.xlsx";
   sample_row (Some (Time.midnight 19727)) "CONSULTA" (ANum 20) "b.xlsx"].

Lemma cross_file_dates_flagged_once_witness :
  most_common_value (money_per_day sample_cross_file_rows) = Some 10
  /\ In (Time.midnight 19723, Some 10, multi_source)
        (detect_anomalous_payments sample_cross_file_rows)
  /\ detect_anomalous_payments sample_cross_file_rows
     = [(Time.midnight 19723, Some 10, multi_source);
        (Time.midnight 19726, Some 15, multi_source);
        (Time.midnight 19727, Some 20, unusual_payment)].
Proof.
  split; [reflexivity|]. split; [|reflexivity].
  refine (proj1 (cross_file_dates_flagged_once sample_cross_file_rows)
                (Time.midnight 19723) _).
  exists (sample_row (Some (Time.midnight 19723)) "CONSULTA" (ANum 5) "a.xlsx"),
         (sample_row (Some (Time.midnight 19723)) "CONSULTA" (ANum 5) "b.xlsx").
  simpl. repeat split; auto. discriminate.
Defined.

(** ** Further facts about the model *)

(** Timestamps that carry a time of day are compared as they stand: with
    records at 08:00 on 1 January 2024 and at 09:00 on 2 January, the range
    steps to 08:00 on 2 January, which is no present timestamp, and its day
    is listed. *)
Example find_missing_dates_time_of_day :
  let hour := 3600000000000 in
  find_missing_dates
    [sample_row (Some (Time.midnight 19723 + 8 * hour)) "INGRESO NO QUIR. A"
                (ANum 10) "a.xlsx";
     sample_row (Some (Time.midnight 19724 + 9 * hour)) "INGRESO NO QUIR. A"
                (ANum 10) "a.xlsx"]
  = ["02-01-24"].
Proof. reflexivity. Qed.

Lemma category_dot_selects_other_products_witness :
  contains_category "Ingreso no quir. medico" = true.
Proof.
  apply (proj2 (proj2 category_dot_selects_other_products)).
  reflexivity.
Defined.

(** * Further properties *)

(** ** More on [find_missing_dates] *)

Lemma missing_timestamps_few (df : list Row) :
  (List.length (present_dates df) < 2)%nat -> missing_timestamps df = [].
Proof.
  intros H. unfold missing_timestamps.
  destruct (filter is_ingreso_no_quir df); [reflexivity|].
  destruct (Nat.ltb_spec (List.length (present_dates df)) 2);
    [reflexivity | lia].
Qed.

Lemma same_members_same_length {A : Type} (l l' : list A) :
  NoDup l -> NoDup l' -> (forall x, In x l <-> In x l') ->
  List.length l = List.length l'.
Proof.
  intros ND ND' H. apply Nat.le_antisymm; apply NoDup_incl_length; auto;
    intros x Hx; now apply H.
Qed.

Lemma same_members_same_min (l l' : list Z) :
  l <> [] -> (forall x, In x l <-> In x l') ->
  Time.index_min l = Time.index_min l' /\ Time.index_max l = Time.index_max l'.
Proof.
  intros Hne H.
  assert (Hne' : l' <> []).
  { destruct l as [|x l]; [congruence|]. intros ->.
    apply (proj1 (H x)). now left. }
  destruct (index_min_spec l Hne) as [Hm Hlo].
  destruct (index_min_spec l' Hne') as [Hm' Hlo'].
  destruct (index_max_spec l Hne) as [HM Hhi].
  destruct (index_max_spec l' Hne') as [HM' Hhi'].
  pose proof (Hlo _ (proj2 (H _) Hm')). pose proof (Hlo' _ (proj1 (H _) Hm)).
  pose proof (Hhi _ (proj2 (H _) HM')). pose proof (Hhi' _ (proj1 (H _) HM)).
  split; lia.
Qed.

(** X1.  The result is decided by the set of present dates alone: the order of
    the rows, their number, their amounts and files, and the rows of other
    products play no part. *)
Theorem find_missing_dates_depends_on_present_dates (a b : list Row) :
  (forall t, In t (present_dates a) <-> In t (present_dates b)) ->
  find_missing_dates a = find_missing_dates b.
Proof.
  intros H. unfold find_missing_dates. f_equal.
  pose proof (same_members_same_length _ _ (NoDup_present_dates a)
                (NoDup_present_dates b) H) as Hlen.
  destruct (Nat.lt_ge_cases (List.length (present_dates a)) 2) as [Hfew|Hmany].
  - rewrite (missing_timestamps_few a Hfew).
    rewrite (missing_timestamps_few b); [reflexivity | lia].
  - rewrite (missing_timestamps_unfold a Hmany).
    rewrite (missing_timestamps_unfold b) by lia.
    assert (Hne : present_dates a <> []).
    { destruct (present_dates a); simpl in Hmany; [lia | congruence]. }
    destruct (same_members_same_min _ _ Hne H) as [-> ->].
    apply filter_ext. intros t. f_equal.
    destruct (mem Z.eqb t (present_dates a)) eqn:Ea;
      destruct (mem Z.eqb t (present_dates b)) eqn:Eb; try reflexivity.
    + apply (mem_In Z.eqb Z.eqb_eq) in Ea. apply H in Ea.
      apply (mem_In Z.eqb Z.eqb_eq) in Ea. congruence.
    + apply (mem_In Z.eqb Z.eqb_eq) in Eb. apply H in Eb.
      apply (mem_In Z.eqb Z.eqb_eq) in Eb. congruence.
Qed.

(** The rows of [sample_gap_rows] in the other order, one of them twice and
    from another file, with a row of another product on the day between. *)
Definition sample_gap_rows_shuffled : list Row :=
  [sample_row (Some (Time.midnight 19725)) "ingreso no quir. A" (ANum 3) "b.xlsx";
   sample_row (Some (Time.midnight 19724)) "CONSULTA" (ANum 5) "b.xlsx";
   sample_row (Some (Time.midnight 19723)) "INGRESO NO QUIR. A" (ANum 10) "a.xlsx";
   sample_row (Some (Time.midnight 19725)) "ingreso no quir. A" (ANum 10) "a.xlsx"].

Lemma find_missing_dates_depends_on_present_dates_witness :
  find_missing_dates sample_gap_rows_shuffled = find_missing_dates sample_gap_rows.
Proof.
  apply find_missing_dates_depends_on_present_dates.
  intros t. change (present_dates sample_gap_rows_shuffled)
    with [Time.midnight 19725; Time.midnight 19723].
  change (present_dates sample_gap_rows)
    with [Time.midnight 19723; Time.midnight 19725].
  simpl. tauto.
Defined.

(** X2.  The dates returned lie strictly between the first and the last present
    date: neither end of the observed span is ever reported. *)
Theorem missing_dates_strictly_inside (df : list Row) (t : Z) :
  In t (missing_timestamps df) ->
  Time.index_min (present_dates df) < t < Time.index_max (present_dates df).
Proof.
  intros Hin.
  destruct (Nat.lt_ge_cases (List.length (present_dates df)) 2) as [Hfew|Hmany].
  { rewrite (missing_timestamps_few df Hfew) in Hin. destruct Hin. }
  destruct (present_bounds df ltac:(lia)) as (Hmin & Hmax & _).
  apply (In_missing_timestamps df Hmany) in Hin as [(k & E & Hle) Hnot].
  pose proof DAY_pos.
  assert (t <> Time.index_min (present_dates df)) by (intros ->; auto).
  assert (t <> Time.index_max (present_dates df)) by (intros ->; auto).
  assert (0 <= Z.of_nat k * Time.DAY) by (apply Z.mul_nonneg_nonneg; lia).
  lia.
Qed.

Lemma missing_dates_strictly_inside_witness :
  Time.midnight 19723 < Time.midnight 19724 < Time.midnight 19725.
Proof.
  apply (missing_dates_strictly_inside sample_gap_rows (Time.midnight 19724)).
  vm_compute. auto.
Defined.

(** The present dates are whole days: the case of a ledger whose activity
    dates carry no time of day. *)
Definition whole_days (df : list Row) : Prop :=
  forall t, In t (present_dates df) -> t mod Time.DAY = 0.

Lemma whole_day_span (lo hi : Z) :
  lo mod Time.DAY = 0 -> hi mod Time.DAY = 0 ->
  (hi - lo) / Time.DAY = Time.day_of hi - Time.day_of lo.
Proof.
  intros Hlo Hhi. pose proof DAY_pos.
  rewrite (whole_day_is_midnight lo Hlo) at 1.
  rewrite (whole_day_is_midnight hi Hhi) at 1.
  unfold Time.midnight. rewrite <- Z.mul_sub_distr_r.
  apply Z.div_mul. lia.
Qed.

Lemma present_in_range (df : list Row) (t : Z) :
  whole_days df -> In t (present_dates df) ->
  In t (Time.date_range (Time.index_min (present_dates df))
                        (Time.index_max (present_dates df))).
Proof.
  intros Hw Ht.
  assert (Hlen : (1 <= List.length (present_dates df))%nat).
  { destruct (present_dates df); [destruct Ht | simpl; lia]. }
  destruct (present_bounds df Hlen) as (Hmin & Hmax & Hb).
  destruct (Hb t Ht) as [Hlo Hhi].
  apply In_date_range.
  exists (Z.to_nat (Time.day_of t - Time.day_of (Time.index_min (present_dates df)))).
  split; [|assumption].
  pose proof (day_of_mono _ _ Hlo).
  rewrite Z2Nat.id by lia.
  rewrite (whole_day_is_midnight t (Hw t Ht)) at 1.
  rewrite (whole_day_is_midnight _ (Hw _ Hmin)) at 1.
  unfold Time.midnight. ring.
Qed.

Lemma filter_split_length {A : Type} (p : A -> bool) (l : list A) :
  (List.length (filter p l) + List.length (filter (fun x => negb (p x)) l)
   = List.length l)%nat.
Proof.
  induction l as [|x l IH]; simpl; [reflexivity|].
  destruct (p x); simpl; lia.
Qed.

(** X3.  For whole-day dates, the days reported missing and the present days
    together count every day of the span from the first to the last present
    day, each once. *)
Theorem missing_and_present_days_fill_the_span (df : list Row) :
  (1 <= List.length (present_dates df))%nat -> whole_days df ->
  Z.of_nat (List.length (find_missing_dates df))
  + Z.of_nat (List.length (present_dates df))
  = Time.day_of (Time.index_max (present_dates df))
    - Time.day_of (Time.index_min (present_dates df)) + 1.
Proof.
  intros Hlen Hw. unfold find_missing_dates. rewrite length_map.
  destruct (present_bounds df Hlen) as (Hmin & Hmax & Hb).
  destruct (Hb _ Hmin) as [_ Hle].
  pose proof (day_of_mono _ _ Hle) as Hdays.
  destruct (Nat.lt_ge_cases (List.length (present_dates df)) 2) as [Hfew|Hmany].
  - rewrite (missing_timestamps_few df Hfew).
    destruct (present_dates df) as [|t [|u l]]; simpl in *; try lia.
  - rewrite (missing_timestamps_unfold df Hmany).
    set (present := present_dates df) in *.
    set (range := Time.date_range (Time.index_min present)
                                  (Time.index_max present)).
    pose proof (filter_split_length (fun x => mem Z.eqb x present) range) as Hsplit.
    assert (Hin : List.length (filter (fun x => mem Z.eqb x present) range)
                  = List.length present).
    { apply same_members_same_length.
      - apply NoDup_filter, strictly_sorted_NoDup, date_range_sorted.
      - apply NoDup_present_dates.
      - intros x. rewrite filter_In, (mem_In Z.eqb Z.eqb_eq). split.
        + tauto.
        + intros Hx. split; [|assumption]. now apply present_in_range. }
    assert (Hrange : List.length range
                     = S (Z.to_nat (Time.day_of (Time.index_max present)
                                    - Time.day_of (Time.index_min present)))).
    { subst range. unfold Time.date_range.
      destruct (Z.ltb_spec (Time.index_max present) (Time.index_min present));
        [lia|].
      rewrite length_map, length_seq.
      now rewrite (whole_day_span _ _ (Hw _ Hmin) (Hw _ Hmax)). }
    lia.
Qed.

Lemma missing_and_present_days_fill_the_span_witness :
  Z.of_nat (List.length (find_missing_dates sample_gap_rows))
  + Z.of_nat (List.length (present_dates sample_gap_rows))
  = Time.day_of (Time.index_max (present_dates sample_gap_rows))
    - Time.day_of (Time.index_min (present_dates sample_gap_rows)) + 1.
Proof.
  apply missing_and_present_days_fill_the_span.
  - vm_compute. lia.
  - intros t Ht. vm_compute in Ht.
    destruct Ht as [<-|[<-|[]]]; reflexivity.
Defined.

(** X4.  For whole-day dates, nothing is reported missing exactly when every day
    from the first to the last present day is a present day. *)
Theorem no_missing_day_iff_consecutive (df : list Row) :
  (1 <= List.length (present_dates df))%nat -> whole_days df ->
  find_missing_dates df = []
  <-> forall d,
        Time.day_of (Time.index_min (present_dates df)) <= d
        <= Time.day_of (Time.index_max (present_dates df)) ->
        In (Time.midnight d) (present_dates df).
Proof.
  intros Hlen Hw.
  destruct (present_bounds df Hlen) as (Hmin & Hmax & Hb).
  pose proof DAY_pos as HD.
  destruct (Nat.lt_ge_cases (List.length (present_dates df)) 2) as [Hfew|Hmany].
  { unfold find_missing_dates. rewrite (missing_timestamps_few df Hfew).
    split; [intros _ d Hd | reflexivity].
    destruct (present_dates df) as [|t [|u l]] eqn:E; simpl in *; try lia.
    assert (d = Time.day_of t) as -> by lia.
    left. apply whole_day_is_midnight. apply Hw. rewrite E. now left. }
  unfold find_missing_dates. split.
  - intros Hnil d Hd.
    destruct (in_dec Z.eq_dec (Time.midnight d) (present_dates df)) as [|Hnot];
      [assumption|].
    assert (Hm : In (Time.midnight d) (missing_timestamps df)).
    { apply (In_missing_timestamps df Hmany). split; [|assumption].
      exists (Z.to_nat (d - Time.day_of (Time.index_min (present_dates df)))).
      rewrite Z2Nat.id by lia.
      rewrite (whole_day_is_midnight _ (Hw _ Hmin)) at 1.
      rewrite (whole_day_is_midnight _ (Hw _ Hmax)) at 1.
      unfold Time.midnight. split; [ring|].
      apply Z.mul_le_mono_nonneg_r; lia. }
    destruct (missing_timestamps df); [destruct Hm | discriminate Hnil].
  - intros Hall.
    destruct (missing_timestamps df) as [|t l] eqn:E; [reflexivity|].
    assert (Hm : In t (missing_timestamps df)) by (rewrite E; now left).
    apply (In_missing_timestamps df Hmany) in Hm as [(k & Et & Hle) Hnot].
    exfalso. apply Hnot.
    assert (Ht : t = Time.midnight
                       (Time.day_of (Time.index_min (present_dates df))
                        + Z.of_nat k)).
    { rewrite Et. rewrite (whole_day_is_midnight _ (Hw _ Hmin)) at 1.
      unfold Time.midnight. ring. }
    rewrite Ht. apply Hall. split; [lia|].
    rewrite <- day_of_step, <- Et. now apply day_of_mono.
Qed.

Definition sample_consecutive_rows : list Row :=
  [sample_row (Some (Time.midnight 19723)) "INGRESO NO QUIR. A" (ANum 10) "a.xlsx";
   sample_row (Some (Time.midnight 19725)) "INGRESO NO QUIR. A" (ANum 10) "a.xlsx";
   sample_row (Some (Time.midnight 19724)) "INGRESO NO QUIR. B" (ANum 10) "a.xlsx"].

Lemma no_missing_day_iff_consecutive_witness :
  find_missing_dates sample_consecutive_rows = []
  <-> forall d,
        Time.day_of (Time.index_min (present_dates sample_consecutive_rows)) <= d
        <= Time.day_of (Time.index_max (present_dates sample_consecutive_rows)) ->
        In (Time.midnight d) (present_dates sample_consecutive_rows).
Proof.
  apply no_missing_day_iff_consecutive.
  - vm_compute. lia.
  - intros t Ht. vm_compute in Ht.
    destruct Ht as [<-|[<-|[<-|[]]]]; reflexivity.
Defined.

(** ** The category test ignores letter case *)

Lemma lower_idempotent (c : ascii) : Str.lower (Str.lower c) = Str.lower c.
Proof. destruct c as [[] [] [] [] [] [] [] []]; reflexivity. Qed.

Lemma is_newline_lower (c : ascii) :
  Str.is_newline (Str.lower c) = Str.is_newline c.
Proof. destruct c as [[] [] [] [] [] [] [] []]; reflexivity. Qed.

Lemma atom_matches_lower (a : Re.atom) (c : ascii) :
  Re.atom_matches true a (Str.lower c) = Re.atom_matches true a c.
Proof.
  destruct a as [x|]; simpl.
  - unfold Str.eqb_ci. now rewrite lower_idempotent.
  - now rewrite is_newline_lower.
Qed.

Lemma match_here_lower (p : list Re.atom) (s : string) :
  Re.match_here true p (Str.map Str.lower s) = Re.match_here true p s.
Proof.
  revert p. induction s as [|c s IH]; intros [|a p]; simpl; try reflexivity.
  now rewrite atom_matches_lower, IH.
Qed.

Lemma search_lower (p : list Re.atom) (s : string) :
  Re.search true p (Str.map Str.lower s) = Re.search true p s.
Proof.
  induction s as [|c s IH].
  - reflexivity.
  - change (Str.map Str.lower (String c s))
      with (String (Str.lower c) (Str.map Str.lower s)).
    change (Re.search true p (String (Str.lower c) (Str.map Str.lower s)))
      with (Re.match_here true p (Str.map Str.lower (String c s))
            || Re.search true p (Str.map Str.lower s))%bool.
    now rewrite match_here_lower, IH.
Qed.

(** X5.  Two product names that differ only in the case of their ASCII letters
    are treated alike by the category test ([case=False]). *)
Theorem category_test_ignores_case (s s' : string) :
  Str.map Str.lower s = Str.map Str.lower s' ->
  contains_category s = contains_category s'.
Proof.
  intros E. unfold contains_category.
  rewrite <- (search_lower _ s), <- (search_lower _ s'). now rewrite E.
Qed.

Lemma category_test_ignores_case_witness :
  contains_category "Ingreso No Quir. x" = contains_category "INGRESO no QUIR. X".
Proof.
  apply category_test_ignores_case. reflexivity.
Defined.

(** ** The most common daily amount (lines 100-109) *)

Lemma count_two_values (l : list Z) (x y : Z) :
  x <> y ->
  (count_occ Z.eq_dec l x + count_occ Z.eq_dec l y <= List.length l)%nat.
Proof.
  intros Hxy. induction l as [|z l IH]; simpl; [lia|].
  destruct (Z.eq_dec z x); destruct (Z.eq_dec z y); lia.
Qed.

Lemma filter_drops_one {A : Type} (p : A -> bool) (l : list A) (x : A) :
  In x l -> p x = false ->
  (List.length (filter p l) < List.length l)%nat.
Proof.
  intros Hin Hp. induction l as [|y l IH]; [destruct Hin|].
  pose proof (filter_length_le p l). simpl.
  destruct Hin as [->|Hin].
  - rewrite Hp. lia.
  - specialize (IH Hin). destruct (p y); simpl; lia.
Qed.

(** X6.  Whatever the daily amounts, the days that are not flagged as unusual all
    carry one amount, no other amount occurs on more days, and at least one
    day is left unflagged. *)
Theorem unflagged_days_share_a_most_frequent_amount (per_day : list (Z * Z)) :
  per_day <> [] ->
  exists m,
    most_common_value per_day = Some m
    /\ (forall d a, In (d, a) per_day ->
          (In (d, a) (weird_dates_payments per_day) <-> a <> m))
    /\ (forall x, (count_occ Z.eq_dec (map snd per_day) x
                   <= count_occ Z.eq_dec (map snd per_day) m)%nat)
    /\ (List.length (weird_dates_payments per_day) < List.length per_day)%nat.
Proof.
  intros Hne.
  destruct (most_common_value_spec per_day Hne) as (m & Hm & Hin & Hmax).
  exists m. split; [assumption|].
  unfold weird_dates_payments. rewrite Hm. split; [|split].
  - intros d a Hda. rewrite filter_In. simpl.
    rewrite negb_true_iff, Z.eqb_neq. tauto.
  - intros x.
    destruct (in_dec Z.eq_dec x (map snd per_day)) as [Hx|Hx]; [now apply Hmax|].
    apply (count_occ_not_In Z.eq_dec) in Hx. lia.
  - apply in_map_iff in Hin as (e & E & He).
    apply (filter_drops_one _ _ e He). now rewrite E, Z.eqb_refl.
Qed.

Definition sample_per_day : list (Z * Z) := [(1, 10); (2, 7); (3, 10)].

Lemma unflagged_days_share_a_most_frequent_amount_witness :
  exists m,
    most_common_value sample_per_day = Some m
    /\ (forall d a, In (d, a) sample_per_day ->
          (In (d, a) (weird_dates_payments sample_per_day) <-> a <> m))
    /\ (forall x, (count_occ Z.eq_dec (map snd sample_per_day) x
                   <= count_occ Z.eq_dec (map snd sample_per_day) m)%nat)
    /\ (List.length (weird_dates_payments sample_per_day)
        < List.length sample_per_day)%nat.
Proof.
  apply unflagged_days_share_a_most_frequent_amount. discriminate.
Defined.

(** X7.  An amount paid on more than half of the days is the most common value,
    so the unusual days are exactly the days with another amount; no tie
    can arise. *)
Theorem majority_amount_is_most_common (per_day : list (Z * Z)) (v : Z) :
  (List.length per_day < 2 * count_occ Z.eq_dec (map snd per_day) v)%nat ->
  most_common_value per_day = Some v
  /\ weird_dates_payments per_day
     = filter (fun dv => negb (snd dv =? v)) per_day.
Proof.
  intros Hmaj.
  assert (Hne : per_day <> []) by (intros ->; simpl in Hmaj; lia).
  destruct (most_common_value_spec per_day Hne) as (m & Hm & Hin & Hmax).
  assert (Hv : In v (map snd per_day)).
  { apply (count_occ_In Z.eq_dec). lia. }
  specialize (Hmax v Hv).
  assert (m = v) as ->.
  { destruct (Z.eq_dec m v) as [|Hmv]; [assumption|].
    pose proof (count_two_values (map snd per_day) m v Hmv) as Hc.
    rewrite length_map in Hc. lia. }
  split; [assumption|]. unfold weird_dates_payments. now rewrite Hm.
Qed.

Lemma majority_amount_is_most_common_witness :
  most_common_value sample_per_day = Some 10
  /\ weird_dates_payments sample_per_day
     = filter (fun dv => negb (snd dv =? 10)) sample_per_day.
Proof.
  apply majority_amount_is_most_common. simpl. lia.
Defined.

(** X8.  Every line under "Unusual Payments and Cross-File Dates" shows the money
    of its day: a flagged date is one of the modality's listed days, so the
    default 'N/A' of [money_per_day.get] is never shown. *)
Theorem flagged_entry_shows_the_day_money
  (l : list Row) (d : Z) (money : option Z) (rsn : reason) :
  In (d, money, rsn) (detect_anomalous_payments l) ->
  money = Some (day_money l d) /\ In (d, day_money l d) (money_per_day l).
Proof.
  intros H. apply In_detect in H as (Hd & -> & _).
  split; [reflexivity|]. apply In_money_per_day.
  split; [now apply flagged_date_is_key | reflexivity].
Qed.

Lemma flagged_entry_shows_the_day_money_witness :
  Some 20 = Some (day_money sample_outlier_rows (Time.midnight 19725))
  /\ In (Time.midnight 19725, day_money sample_outlier_rows (Time.midnight 19725))
        (money_per_day sample_outlier_rows).
Proof.
  apply (flagged_entry_shows_the_day_money sample_outlier_rows
           (Time.midnight 19725) (Some 20) unusual_payment).
  vm_compute. auto.
Defined.

(** ** The loop over patients (lines 52-140) *)

Lemma cell_same_spec (a b : option string) : cell_same a b = true <-> a = b.
Proof.
  destruct a as [x|], b as [y|]; simpl; try (split; [discriminate|congruence]).
  - rewrite String.eqb_eq. split; congruence.
  - tauto.
Qed.

(** A combined dataset that passes the two guards of [process_data]. *)
Definition well_formed (df : DataFrame) : Prop :=
  empty df = false
  /\ forall col, In col required_columns -> In col (columns df).

(** The rows of line 52, [contains] being the compiled pattern. *)
Definition matching_rows (contains : string -> bool) (df : DataFrame)
  : list Row :=
  filter (fun r => contains (astype_str (liquidacion r))) (rows df).

Section ReportFacts.
Variable parse_number : string -> option (option Z).
Variable re_compile : string -> option (string -> bool).

Lemma process_data_well_formed (df : DataFrame) (person : option string)
  (contains : string -> bool) :
  well_formed df ->
  re_compile (str_person person) = Some contains ->
  process_data parse_number re_compile df person
  = match matching_rows contains df with
    | [] => NoDataWarning
    | _ :: _ =>
        let '(reps, ok) :=
          render_patients parse_number (matching_rows contains df)
            (unique cell_same (map paciente (matching_rows contains df))) in
        if ok then Rendered reps else Crashed reps
    end.
Proof.
  intros [He Hc] Hre. unfold process_data, matching_rows. rewrite He.
  assert (Hall : forallb (fun col => mem String.eqb col (columns df))
                         required_columns = true).
  { apply forallb_forall. intros col Hcol.
    apply (mem_In String.eqb string_eqb_spec). now apply Hc. }
  rewrite Hall, Hre. reflexivity.
Qed.

Lemma to_numeric_all_None (cells : list amount_cell) :
  to_numeric_all parse_number cells = None ->
  exists c, In c cells /\ to_numeric_cell parse_number c = None.
Proof.
  induction cells as [|c cells IH]; [discriminate|].
  rewrite to_numeric_all_cons.
  destruct (to_numeric_cell parse_number c) as [a|] eqn:Ec.
  - destruct (to_numeric_all parse_number cells); [discriminate|].
    intros _. destruct (IH eq_refl) as (c' & Hin & Hc'). exists c'. simpl. auto.
  - intros _. exists c. simpl. auto.
Qed.

(** A patient's section fails exactly when one of the patient's amounts
    is not a number. *)
Lemma patient_report_None (df_filtered : list Row) (p : option string) :
  patient_report parse_number df_filtered p = None
  <-> exists r, In r df_filtered /\ paciente r = p /\ p <> None
                /\ to_numeric_cell parse_number (i_liquidado r) = None.
Proof.
  unfold patient_report, numeric_patient_data.
  set (patient_rows := filter (fun r => cell_eqb (paciente r) p) df_filtered).
  assert (Hrow : forall r, In r patient_rows
                           <-> In r df_filtered /\ paciente r = p /\ p <> None).
  { intros r. subst patient_rows. rewrite filter_In.
    destruct (paciente r) as [x|], p as [y|]; simpl;
      try (split; [intros [_ H]; discriminate H | intros (_ & H & H'); congruence]).
    rewrite String.eqb_eq. split.
    - intros [H ->]. repeat split; [assumption | discriminate].
    - intros (H & [= ->] & _). auto. }
  split.
  - destruct (to_numeric_all parse_number (map i_liquidado patient_rows)) eqn:E;
      [discriminate|].
    intros _. apply to_numeric_all_None in E as (c & Hc & Ec).
    apply in_map_iff in Hc as (r & <- & Hr). apply Hrow in Hr.
    exists r. tauto.
  - intros (r & Hr & Hp & Hne & Ec).
    rewrite (to_numeric_all_fails parse_number _ (i_liquidado r));
      [reflexivity | | exact Ec].
    apply in_map, Hrow. auto.
Qed.

Lemma patient_report_patient (df_filtered : list Row) (p : option string)
  (rep : PatientReport) :
  patient_report parse_number df_filtered p = Some rep -> patient rep = p.
Proof.
  unfold patient_report.
  destruct (numeric_patient_data parse_number _); [|discriminate].
  now intros [= <-].
Qed.

(** The reports written are those of the patients before the first one
    whose section fails. *)
Lemma render_patients_spec (df_filtered : list Row)
  (patients : list (option string)) (reps : list PatientReport) (ok : bool) :
  render_patients parse_number df_filtered patients = (reps, ok) ->
  (forall rep, In rep reps ->
               patient_report parse_number df_filtered (patient rep) = Some rep)
  /\ (ok = true -> map patient reps = patients)
  /\ (ok = false ->
      exists p after,
        patients = (map patient reps ++ p :: after)%list
        /\ patient_report parse_number df_filtered p = None).
Proof.
  revert reps ok. induction patients as [|p rest IH]; intros reps ok; simpl.
  - intros [= <- <-]. repeat split; [intros rep [] | discriminate].
  - destruct (patient_report parse_number df_filtered p) as [rep|] eqn:Ep.
    + destruct (render_patients parse_number df_filtered rest) as [reps' ok'].
      intros [= <- <-].
      destruct (IH reps' ok' eq_refl) as (Hall & Hok & Hko).
      pose proof (patient_report_patient _ _ _ Ep) as Hp.
      split; [|split].
      * intros rep' [<-|Hin]; [now rewrite Hp | now apply Hall].
      * intros H. simpl. now rewrite Hp, (Hok H).
      * intros H. destruct (Hko H) as (q & after & -> & Hq).
        exists q, after. simpl. now rewrite Hp.
    + intros [= <- <-]. split; [intros rep []|]. split; [discriminate|].
      intros _. exists p, rest. auto.
Qed.

End ReportFacts.

(** X11.  When the person text compiles as a pattern and every amount of
    the matching rows of named patients reads as a number or as NaN, the
    report is written to its end: one section per distinct patient, in
    order of first appearance among the matching rows, no patient twice.
    (An empty amount cell is read through its text "nan": it meets the
    condition only for a reader that takes that text.) *)
Theorem readable_amounts_give_one_section_per_patient
  (parse_number : string -> option (option Z))
  (re_compile : string -> option (string -> bool))
  (df : DataFrame) (person : option string) (contains : string -> bool) :
  well_formed df ->
  re_compile (str_person person) = Some contains ->
  matching_rows contains df <> [] ->
  (forall r, In r (matching_rows contains df) -> paciente r <> None ->
             to_numeric_cell parse_number (i_liquidado r) <> None) ->
  exists reps,
    process_data parse_number re_compile df person = Rendered reps
    /\ map patient reps
       = unique cell_same (map paciente (matching_rows contains df))
    /\ NoDup (map patient reps).
Proof.
  intros Hwf Hre Hne Hread.
  rewrite (process_data_well_formed parse_number re_compile df person contains
             Hwf Hre).
  destruct (matching_rows contains df) as [|r0 l] eqn:El; [congruence|].
  rewrite <- El in *. clear El r0 l Hne.
  destruct (render_patients parse_number _ _) as [reps ok] eqn:Er.
  destruct (render_patients_spec _ _ _ _ _ Er) as (Hall & Hok & Hko).
  destruct ok.
  - exists reps. split; [reflexivity|]. split; [now apply Hok|].
    rewrite (Hok eq_refl). apply (NoDup_unique cell_same cell_same_spec).
  - exfalso. destruct (Hko eq_refl) as (p & after & _ & Hp).
    apply patient_report_None in Hp as (r & Hr & Hpr & Hnone & Hc).
    apply (Hread r Hr); [congruence | assumption].
Qed.

(** X12.  When a matching row of a named patient has an amount that is
    not a number, the report is cut: the sections written are those of the
    patients that come before the first patient with such an amount, none
    of which has one, and nothing follows.  (For a reader that does not take
    the text "nan", an empty amount cell is such an amount.) *)
Theorem unreadable_amount_cuts_the_report
  (parse_number : string -> option (option Z))
  (re_compile : string -> option (string -> bool))
  (df : DataFrame) (person : option string) (contains : string -> bool)
  (r : Row) :
  well_formed df ->
  re_compile (str_person person) = Some contains ->
  In r (matching_rows contains df) -> paciente r <> None ->
  to_numeric_cell parse_number (i_liquidado r) = None ->
  exists reps p after,
    process_data parse_number re_compile df person = Crashed reps
    /\ unique cell_same (map paciente (matching_rows contains df))
       = (map patient reps ++ p :: after)%list
    /\ (exists r', In r' (matching_rows contains df) /\ paciente r' = p
                   /\ p <> None
                   /\ to_numeric_cell parse_number (i_liquidado r') = None)
    /\ forall rep r', In rep reps -> In r' (matching_rows contains df) ->
         paciente r' = patient rep -> patient rep <> None ->
         to_numeric_cell parse_number (i_liquidado r') <> None.
Proof.
  intros Hwf Hre Hr Hnamed Hc.
  rewrite (process_data_well_formed parse_number re_compile df person contains
             Hwf Hre).
  destruct (matching_rows contains df) as [|r0 l] eqn:El; [destruct Hr|].
  rewrite <- El in *. clear El r0 l.
  destruct (render_patients parse_number _ _) as [reps ok] eqn:Er.
  destruct (render_patients_spec _ _ _ _ _ Er) as (Hall & Hok & Hko).
  destruct ok.
  - exfalso.
    assert (Hp : In (paciente r) (map patient reps)).
    { rewrite (Hok eq_refl). apply (In_unique cell_same cell_same_spec).
      now apply in_map. }
    apply in_map_iff in Hp as (rep & Ep & Hrep).
    specialize (Hall rep Hrep). rewrite Ep in Hall.
    assert (Hnone : patient_report parse_number
                      (matching_rows contains df) (paciente r) = None).
    { apply patient_report_None. exists r. auto. }
    congruence.
  - destruct (Hko eq_refl) as (p & after & Hsplit & Hp).
    exists reps, p, after. split; [reflexivity|]. split; [assumption|].
    split; [now apply patient_report_None|].
    intros rep r' Hrep Hr' Hpr Hnn Hbad.
    assert (Hnone : patient_report parse_number
                      (matching_rows contains df) (patient rep) = None).
    { apply patient_report_None. exists r'. auto. }
    rewrite (Hall rep Hrep) in Hnone. discriminate Hnone.
Qed.

Definition sample_patient_row (name : string) (day : Z) (amount : amount_cell)
  : Row :=
  mkRow (Some "L-Doe") (Some name) (Some (Time.midnight day)) (Some "CONSULTA")
        amount "a.xlsx".

Definition sample_columns : list string :=
  [col_liquidacion; col_paciente; col_f_actividad; col_producto;
   col_i_liquidado; col_source_file].

Lemma sample_columns_complete (l : list Row) :
  l <> [] -> well_formed (mkDataFrame sample_columns l).
Proof.
  intros Hne. split.
  - destruct l; [congruence | reflexivity].
  - intros col Hcol. simpl in Hcol |- *. tauto.
Qed.

Definition sample_readable_df : DataFrame :=
  mkDataFrame sample_columns
    [sample_patient_row "P" 19723 (ANum 10);
     sample_patient_row "Q" 19723 (AText "4");
     sample_patient_row "P" 19724 (AText "")].

Lemma readable_amounts_give_one_section_per_patient_witness :
  exists reps,
    process_data read_integer (fun _ => Some (fun _ => true))
                 sample_readable_df (Some "Doe")
    = Rendered reps
    /\ map patient reps = [Some "P"; Some "Q"].
Proof.
  destruct (readable_amounts_give_one_section_per_patient
              read_integer (fun _ => Some (fun _ => true))
              sample_readable_df (Some "Doe") (fun _ => true))
    as (reps & H1 & H2 & _).
  - apply sample_columns_complete. discriminate.
  - reflexivity.
  - discriminate.
  - intros r Hr _. simpl in Hr.
    destruct Hr as [<-|[<-|[<-|[]]]]; discriminate.
  - exists reps. split; [exact H1 | exact H2].
Defined.

(** Patient "P" has an empty amount cell, patient "Q" a text that is no
    number. *)
Definition sample_unreadable_df : DataFrame :=
  mkDataFrame sample_columns
    [sample_patient_row "O" 19723 (ANum 10);
     sample_patient_row "P" 19723 ANull;
     sample_patient_row "Q" 19723 (AText "abc");
     sample_patient_row "R" 19723 (ANum 5)].

Lemma unreadable_amount_cuts_the_report_witness :
  exists reps p after,
    process_data read_integer (fun _ => Some (fun _ => true))
                 sample_unreadable_df (Some "Doe")
    = Crashed reps
    /\ [Some "O"; Some "P"; Some "Q"; Some "R"]
       = (map patient reps ++ p :: after)%list.
Proof.
  destruct (unreadable_amount_cuts_the_report
              read_integer (fun _ => Some (fun _ => true))
              sample_unreadable_df (Some "Doe") (fun _ => true)
              (sample_patient_row "Q" 19723 (AText "abc")))
    as (reps & p & after & H1 & H2 & _).
  - apply sample_columns_complete. discriminate.
  - reflexivity.
  - simpl. auto.
  - discriminate.
  - reflexivity.
  - exists reps, p, after. split; [exact H1 | exact H2].
Defined.

(** ** Reading the uploaded files (lines 187-248) *)

Lemma has_app (p : ascii -> bool) (a b : string) :
  Str.has p (a ++ b) = (Str.has p a || Str.has p b)%bool.
Proof.
  induction a as [|c a IH]; simpl; [reflexivity|].
  now rewrite IH, orb_assoc.
Qed.

Lemma after_last_none (p : ascii -> bool) (s : string) :
  Str.has p s = false -> Str.after_last p s = s.
Proof.
  destruct s as [|c rest]; simpl; [reflexivity|].
  intros H. apply orb_false_iff in H as [Hc Hrest]. now rewrite Hrest, Hc.
Qed.

Lemma after_last_app (p : ascii -> bool) (stem : string) (c : ascii)
  (ext : string) :
  p c = true -> Str.has p ext = false ->
  Str.after_last p (stem ++ String c ext) = ext.
Proof.
  intros Hc Hext. induction stem as [|x stem IH]; simpl.
  - now rewrite Hext, Hc.
  - rewrite has_app. simpl. rewrite Hc, orb_true_r. exact IH.
Qed.

(** X13.  The extension is the lower-cased text after the last dot of the file
    name, and the whole lower-cased name when the name has no dot. *)
Theorem file_extension_after_last_dot (ext : string) :
  Str.has is_dot ext = false ->
  file_extension ext = Str.map str_lower ext
  /\ forall stem : string,
       file_extension (stem ++ "." ++ ext) = Str.map str_lower ext.
Proof.
  intros H. unfold file_extension. split.
  - now rewrite after_last_none.
  - intros stem.
    change (stem ++ "." ++ ext)%string with (stem ++ String "." ext)%string.
    now rewrite (after_last_app is_dot stem "." ext eq_refl H).
Qed.

Lemma file_extension_after_last_dot_witness :
  file_extension "XLSX" = "xlsx"
  /\ forall stem : string, file_extension (stem ++ "." ++ "XLSX") = "xlsx".
Proof.
  apply (file_extension_after_last_dot "XLSX"). reflexivity.
Defined.

Section MainFacts.
Variable parse_number : string -> option (option Z).
Variable re_compile : string -> option (string -> bool).
Variable office_decrypt : string -> string -> decrypt_result.
Variable read_excel_openpyxl : string -> option DataFrame.
Variable read_excel_xlrd : string -> option DataFrame.

Lemma after_read_Loaded (name : string) (b fb : bool) (read : option DataFrame)
  (df : DataFrame) :
  after_read name b read = Loaded df fb ->
  exists df0, df = tag_source_file name df0.
Proof.
  destruct read as [df0|]; simpl; [|discriminate].
  intros [= <- _]. now exists df0.
Qed.

(** A file is loaded only as a tagged frame, and only if its extension is
    xlsx, or xls with no password given. *)
Lemma load_file_Loaded (password : string) (f : UploadedFile)
  (df : DataFrame) (fb : bool) :
  load_file office_decrypt read_excel_openpyxl read_excel_xlrd password f
  = Loaded df fb ->
  (exists df0, df = tag_source_file (file_name f) df0)
  /\ (file_extension (file_name f) = "xlsx"
      \/ (file_extension (file_name f) = "xls" /\ password = "")).
Proof.
  unfold load_file.
  destruct (String.eqb_spec (file_extension (file_name f)) "xlsx") as [Ex|Ex].
  - intros H. split; [|now left].
    destruct (negb (password =? "")%string).
    + destruct (office_decrypt (file_bytes f) password) as [s| |];
        [|discriminate|now apply after_read_Loaded in H].
      destruct (read_excel_openpyxl s) as [df0|].
      * injection H as <- _. now exists df0.
      * now apply after_read_Loaded in H.
    + now apply after_read_Loaded in H.
  - destruct (String.eqb_spec (file_extension (file_name f)) "xls") as [Es|Es];
      [|discriminate].
    destruct (String.eqb_spec password "") as [Ep|Ep]; simpl; [|discriminate].
    intros H. split; [now apply after_read_Loaded in H | auto].
Qed.

Lemma In_all_dfs (password : string) (files : list UploadedFile)
  (df : DataFrame) :
  In df (flat_map loaded_frame
           (map (load_file office_decrypt read_excel_openpyxl read_excel_xlrd
                           password) files))
  <-> exists f fb,
        In f files
        /\ load_file office_decrypt read_excel_openpyxl read_excel_xlrd
                     password f = Loaded df fb.
Proof.
  rewrite in_flat_map. split.
  - intros (o & Ho & Hdf). apply in_map_iff in Ho as (f & <- & Hf).
    destruct (load_file _ _ _ password f) as [df' fb| | | |] eqn:E;
      simpl in Hdf; try contradiction.
    destruct Hdf as [<-|[]]. now exists f, fb.
  - intros (f & fb & Hf & E). eexists. split.
    + apply in_map_iff. exists f. split; [reflexivity | assumption].
    + rewrite E. now left.
Qed.

Lemma In_rows_concat (all_dfs : list DataFrame) (r : Row) :
  In r (rows (concat all_dfs))
  <-> exists df r0, In df all_dfs /\ In r0 (rows df)
                    /\ r = blank_absent (columns df) r0.
Proof.
  unfold concat. cbn [rows]. rewrite in_flat_map. split.
  - intros (df & Hdf & Hr). apply in_map_iff in Hr as (r0 & <- & Hr0).
    now exists df, r0.
  - intros (df & r0 & Hdf & Hr0 & ->). exists df. split; [assumption|].
    now apply in_map.
Qed.

End MainFacts.

(** [all_dfs] after the loop over the uploaded files. *)
Definition loaded_frames
  (office_decrypt : string -> string -> decrypt_result)
  (read_excel_openpyxl read_excel_xlrd : string -> option DataFrame)
  (password : string) (uploaded_files : list UploadedFile) : list DataFrame :=
  flat_map loaded_frame
    (map (load_file office_decrypt read_excel_openpyxl read_excel_xlrd password)
         uploaded_files).

(** What [main] shows below the messages about the files. *)
Definition shown_report (o : main_outcome) : option (option string * outcome) :=
  match o with
  | Report _ person report => Some (person, report)
  | _ => None
  end.

Lemma main_unfold
  (parse_number : string -> option (option Z))
  (re_compile : string -> option (string -> bool))
  (office_decrypt : string -> string -> decrypt_result)
  (read_excel_openpyxl read_excel_xlrd : string -> option DataFrame)
  (files : list UploadedFile) (password : string) :
  files <> [] ->
  main parse_number re_compile office_decrypt read_excel_openpyxl
       read_excel_xlrd files password
  = match loaded_frames office_decrypt read_excel_openpyxl read_excel_xlrd
            password files with
    | [] => NoValidFiles
              (map (load_file office_decrypt read_excel_openpyxl
                              read_excel_xlrd password) files)
    | df :: rest =>
        Report (map (load_file office_decrypt read_excel_openpyxl
                               read_excel_xlrd password) files)
               (person_under_control (concat (df :: rest)))
               (process_data parse_number re_compile (concat (df :: rest))
                             (person_under_control (concat (df :: rest))))
    end.
Proof.
  intros Hne. unfold main, loaded_frames.
  destruct files as [|f files]; [congruence|].
  cbv zeta.
  now destruct (flat_map loaded_frame
                  (map (load_file office_decrypt read_excel_openpyxl
                                  read_excel_xlrd password) (f :: files))).
Qed.

(** X14.  Every row of the combined dataset carries in [source_file] the name of
    one of the uploaded files, and that file is an xlsx file, or an xls file
    read without password: no other file contributes a row. *)
Theorem combined_rows_come_from_uploaded_excel_files
  (office_decrypt : string -> string -> decrypt_result)
  (read_excel_openpyxl read_excel_xlrd : string -> option DataFrame)
  (password : string) (files : list UploadedFile) (r : Row) :
  In r (rows (concat (loaded_frames office_decrypt read_excel_openpyxl
                                    read_excel_xlrd password files))) ->
  exists f,
    In f files /\ source_file r = file_name f
    /\ (file_extension (file_name f) = "xlsx"
        \/ (file_extension (file_name f) = "xls" /\ password = "")).
Proof.
  intros Hr. apply In_rows_concat in Hr as (df & r0 & Hdf & Hr0 & ->).
  apply In_all_dfs in Hdf as (f & fb & Hf & E).
  apply load_file_Loaded in E as [(df0 & ->) Hext].
  exists f. split; [assumption|]. split; [|assumption].
  cbn [rows tag_source_file] in Hr0.
  apply in_map_iff in Hr0 as (r1 & <- & _). reflexivity.
Qed.

(** Three uploads: a workbook, an old-format workbook and a text file. *)
Definition sample_uploads : list UploadedFile :=
  [mkUploadedFile "jan.xlsx" "A"; mkUploadedFile "feb.XLS" "B";
   mkUploadedFile "notes.txt" "C"].

(** A reader that finds on the second sheet one row of patient "P". *)
Definition sample_reader (bytes : string) : option DataFrame :=
  Some (mkDataFrame
          [col_liquidacion; col_paciente; col_f_actividad; col_producto;
           col_i_liquidado]
          [sample_patient_row "P" 19723 (ANum 10)]).

Lemma combined_rows_come_from_uploaded_excel_files_witness :
  exists f,
    In f sample_uploads /\ "jan.xlsx" = file_name f
    /\ (file_extension (file_name f) = "xlsx"
        \/ (file_extension (file_name f) = "xls" /\ "pw" = "")).
Proof.
  apply (combined_rows_come_from_uploaded_excel_files
           (fun _ _ => DecryptException) sample_reader sample_reader "pw"
           sample_uploads
           (set_source_file "jan.xlsx" (sample_patient_row "P" 19723 (ANum 10)))).
  vm_compute. auto.
Defined.

Lemma tagged_has_source_file (name : string) (df : DataFrame) :
  In col_source_file (columns (tag_source_file name df)).
Proof.
  unfold tag_source_file. cbn [columns].
  destruct (mem String.eqb col_source_file (columns df)) eqn:E.
  - now apply (mem_In String.eqb string_eqb_spec).
  - apply in_or_app. right. now left.
Qed.

Lemma In_columns_concat (all_dfs : list DataFrame) (col : string) :
  In col (columns (concat all_dfs))
  <-> exists df, In df all_dfs /\ In col (columns df).
Proof.
  unfold concat. cbn [columns].
  now rewrite (In_unique String.eqb string_eqb_spec), in_flat_map.
Qed.

Lemma process_data_missing
  (parse_number : string -> option (option Z))
  (re_compile : string -> option (string -> bool))
  (df : DataFrame) (person : option string) (missing : list string) :
  process_data parse_number re_compile df person = MissingColumnsError missing ->
  missing = missing_columns df.
Proof.
  unfold process_data. destruct (empty df); [discriminate|].
  destruct (negb _); [now intros [= <-]|].
  destruct (re_compile (str_person person)) as [contains|]; [|discriminate].
  destruct (filter _ (rows df)); [discriminate|].
  destruct (render_patients _ _ _) as [reps [|]]; discriminate.
Qed.

(** X15.  Whatever the uploaded files hold, the report never names [source_file]
    among the missing columns: the program itself adds the column to every
    frame it loads. *)
Theorem source_file_never_reported_missing
  (parse_number : string -> option (option Z))
  (re_compile : string -> option (string -> bool))
  (office_decrypt : string -> string -> decrypt_result)
  (read_excel_openpyxl read_excel_xlrd : string -> option DataFrame)
  (files : list UploadedFile) (password : string)
  (outcomes : list file_outcome) (person : option string)
  (missing : list string) :
  main parse_number re_compile office_decrypt read_excel_openpyxl
       read_excel_xlrd files password
  = Report outcomes person (MissingColumnsError missing) ->
  ~ In col_source_file missing.
Proof.
  intros Hmain.
  assert (Hne : files <> []) by (intros ->; discriminate Hmain).
  rewrite (main_unfold _ _ _ _ _ _ _ Hne) in Hmain.
  destruct (loaded_frames office_decrypt read_excel_openpyxl read_excel_xlrd
              password files) as [|df rest] eqn:E; [discriminate|].
  injection Hmain as _ _ Hp. apply process_data_missing in Hp. subst missing.
  rewrite In_missing_columns. intros [_ Hnot]. apply Hnot.
  apply In_columns_concat. exists df. split; [now left|].
  assert (Hdf : In df (loaded_frames office_decrypt read_excel_openpyxl
                         read_excel_xlrd password files))
    by (rewrite E; now left).
  apply In_all_dfs in Hdf as (f & fb & _ & Ef).
  apply load_file_Loaded in Ef as [(df0 & ->) _].
  apply tagged_has_source_file.
Qed.

(** A reader that finds a sheet with the patient column only. *)
Definition sample_narrow_reader (bytes : string) : option DataFrame :=
  Some (mkDataFrame [col_paciente] [sample_patient_row "P" 19723 (ANum 10)]).

Lemma source_file_never_reported_missing_witness :
  ~ In col_source_file
       [col_liquidacion; col_f_actividad; col_producto; col_i_liquidado].
Proof.
  eapply (source_file_never_reported_missing
            read_integer (fun _ => Some (fun _ => true)) (fun _ _ => DecryptException)
            sample_narrow_reader sample_narrow_reader sample_uploads "").
  vm_compute. reflexivity.
Defined.

(** X16.  A file that was read reaches the report whatever happens to the other
    files: a wrong password, an unsupported or unreadable file among the
    uploads neither stops the run nor removes a row of the files read. *)
Theorem loaded_file_reaches_the_report
  (parse_number : string -> option (option Z))
  (re_compile : string -> option (string -> bool))
  (office_decrypt : string -> string -> decrypt_result)
  (read_excel_openpyxl read_excel_xlrd : string -> option DataFrame)
  (files : list UploadedFile) (password : string)
  (f : UploadedFile) (df : DataFrame) (fb : bool) :
  In f files ->
  load_file office_decrypt read_excel_openpyxl read_excel_xlrd password f
  = Loaded df fb ->
  (exists person report,
      main parse_number re_compile office_decrypt read_excel_openpyxl
           read_excel_xlrd files password
      = Report (map (load_file office_decrypt read_excel_openpyxl
                               read_excel_xlrd password) files)
               person report)
  /\ forall r, In r (rows df) ->
       In (blank_absent (columns df) r)
          (rows (concat (loaded_frames office_decrypt read_excel_openpyxl
                                       read_excel_xlrd password files))).
Proof.
  intros Hf E.
  assert (Hdf : In df (loaded_frames office_decrypt read_excel_openpyxl
                         read_excel_xlrd password files)).
  { apply In_all_dfs. now exists f, fb. }
  split.
  - rewrite main_unfold by (intros ->; destruct Hf).
    destruct (loaded_frames office_decrypt read_excel_openpyxl read_excel_xlrd
                password files); [destruct Hdf|].
    eauto.
  - intros r Hr. apply In_rows_concat. now exists df, r.
Qed.

Lemma loaded_file_reaches_the_report_witness :
  exists person report,
    main read_integer (fun _ => Some (fun _ => true)) (fun _ _ => DecryptionError)
         sample_reader (fun _ => None)
         (sample_uploads ++ [mkUploadedFile "mar.xlsx" "D"]) ""
    = Report [Loaded (tag_source_file "jan.xlsx"
                        (mkDataFrame
                           [col_liquidacion; col_paciente; col_f_actividad;
                            col_producto; col_i_liquidado]
                           [sample_patient_row "P" 19723 (ANum 10)])) false;
              ProcessingError false; NotRead;
              Loaded (tag_source_file "mar.xlsx"
                        (mkDataFrame
                           [col_liquidacion; col_paciente; col_f_actividad;
                            col_producto; col_i_liquidado]
                           [sample_patient_row "P" 19723 (ANum 10)])) false]
             person report.
Proof.
  refine (proj1 (loaded_file_reaches_the_report
                   read_integer (fun _ => Some (fun _ => true)) (fun _ _ => DecryptionError)
                   sample_reader (fun _ => None)
                   (sample_uploads ++ [mkUploadedFile "mar.xlsx" "D"]) ""
                   (mkUploadedFile "mar.xlsx" "D") _ false _ _)).
  - simpl. auto.
  - reflexivity.
Defined.

(** X17.  With a password typed in, an upload made of xls files only gives no
    report: each file is refused with the warning of line 222 and the run
    ends with "No valid Excel files were processed". *)
Theorem xls_files_with_password_give_no_report
  (parse_number : string -> option (option Z))
  (re_compile : string -> option (string -> bool))
  (office_decrypt : string -> string -> decrypt_result)
  (read_excel_openpyxl read_excel_xlrd : string -> option DataFrame)
  (files : list UploadedFile) (password : string) :
  files <> [] -> password <> "" ->
  (forall f, In f files -> file_extension (file_name f) = "xls") ->
  main parse_number re_compile office_decrypt read_excel_openpyxl
       read_excel_xlrd files password
  = NoValidFiles (map (fun _ => XlsPasswordUnsupported) files).
Proof.
  intros Hne Hpw Hxls.
  assert (Hload : forall f, In f files ->
            load_file office_decrypt read_excel_openpyxl read_excel_xlrd
                      password f = XlsPasswordUnsupported).
  { intros f Hf. unfold load_file. rewrite (Hxls f Hf). simpl.
    destruct (String.eqb_spec password ""); [contradiction | reflexivity]. }
  rewrite (main_unfold _ _ _ _ _ _ _ Hne). unfold loaded_frames.
  rewrite (map_ext_in _ _ _ Hload).
  assert (Hnone : forall l : list UploadedFile,
            flat_map loaded_frame (map (fun _ => XlsPasswordUnsupported) l) = []).
  { induction l as [|x l IH]; [reflexivity | exact IH]. }
  now rewrite Hnone.
Qed.

Lemma xls_files_with_password_give_no_report_witness :
  main read_integer (fun _ => Some (fun _ => true)) (fun _ _ => DecryptException)
       sample_reader sample_reader
       [mkUploadedFile "feb.XLS" "B"; mkUploadedFile "old.xls" "E"] "pw"
  = NoValidFiles [XlsPasswordUnsupported; XlsPasswordUnsupported].
Proof.
  apply (xls_files_with_password_give_no_report
           read_integer (fun _ => Some (fun _ => true)) (fun _ _ => DecryptException)
           sample_reader sample_reader
           [mkUploadedFile "feb.XLS" "B"; mkUploadedFile "old.xls" "E"] "pw").
  - discriminate.
  - discriminate.
  - intros f [<-|[<-|[]]]; reflexivity.
Defined.

(** X18.  When the decryption of each xlsx file ends with an exception other than
    [DecryptionError], the password changes nothing in what is analysed: the
    files are opened as they are, and the person and the report are those
    of the run without password. *)
Theorem undecryptable_xlsx_files_are_read_as_they_are
  (parse_number : string -> option (option Z))
  (re_compile : string -> option (string -> bool))
  (office_decrypt : string -> string -> decrypt_result)
  (read_excel_openpyxl read_excel_xlrd : string -> option DataFrame)
  (files : list UploadedFile) (password : string) :
  (forall f, In f files ->
     file_extension (file_name f) = "xlsx"
     /\ office_decrypt (file_bytes f) password = DecryptException) ->
  loaded_frames office_decrypt read_excel_openpyxl read_excel_xlrd password files
  = loaded_frames office_decrypt read_excel_openpyxl read_excel_xlrd "" files
  /\ shown_report
       (main parse_number re_compile office_decrypt read_excel_openpyxl
             read_excel_xlrd files password)
     = shown_report
         (main parse_number re_compile office_decrypt read_excel_openpyxl
               read_excel_xlrd files "").
Proof.
  intros Hall.
  assert (Hframes :
    loaded_frames office_decrypt read_excel_openpyxl read_excel_xlrd password files
    = loaded_frames office_decrypt read_excel_openpyxl read_excel_xlrd "" files).
  { unfold loaded_frames. induction files as [|f files IH]; [reflexivity|].
    simpl. rewrite IH by (intros f' Hf'; apply Hall; now right). f_equal.
    destruct (Hall f (or_introl eq_refl)) as [Ex Ed].
    unfold load_file. rewrite Ex, Ed. simpl.
    destruct (negb (password =? "")%string);
      now destruct (read_excel_openpyxl (file_bytes f)). }
  split; [assumption|].
  destruct files as [|f files]; [reflexivity|].
  rewrite !main_unfold by discriminate. rewrite Hframes.
  now destruct (loaded_frames office_decrypt read_excel_openpyxl
                  read_excel_xlrd "" (f :: files)).
Qed.

Lemma undecryptable_xlsx_files_are_read_as_they_are_witness :
  shown_report
    (main read_integer (fun _ => Some (fun _ => true)) (fun _ _ => DecryptException)
          sample_reader sample_reader [mkUploadedFile "jan.xlsx" "A"] "pw")
  = shown_report
      (main read_integer (fun _ => Some (fun _ => true)) (fun _ _ => DecryptException)
            sample_reader sample_reader [mkUploadedFile "jan.xlsx" "A"] "").
Proof.
  refine (proj2 (undecryptable_xlsx_files_are_read_as_they_are
                   read_integer (fun _ => Some (fun _ => true)) (fun _ _ => DecryptException)
                   sample_reader sample_reader
                   [mkUploadedFile "jan.xlsx" "A"] "pw" _)).
  intros f [<-|[]]. split; reflexivity.
Defined.

(** X19.  The person under control is read from the first row of the first frame
    loaded, when that frame has a row: the later files play no part, and
    when that frame has no identifier column the person is unknown even if
    a later file has one. *)
Theorem person_comes_from_the_first_loaded_row
  (df : DataFrame) (rest : list DataFrame) (r : Row) (others : list Row) :
  rows df = r :: others ->
  person_under_control (concat (df :: rest))
  = if mem String.eqb col_liquidacion (columns df)
    then person_of_identifier (astype_str (liquidacion r))
    else None.
Proof.
  intros Hrows. unfold person_under_control, concat.
  cbn [columns rows flat_map]. rewrite Hrows. cbn [map app].
  unfold blank_absent. cbn [liquidacion].
  destruct (mem String.eqb col_liquidacion (columns df)) eqn:E.
  - assert (Hin : mem String.eqb col_liquidacion
                    (unique String.eqb (columns df ++ flat_map columns rest))
                  = true).
    { apply (mem_In String.eqb string_eqb_spec).
      apply (In_unique String.eqb string_eqb_spec), in_or_app. left.
      now apply (mem_In String.eqb string_eqb_spec). }
    now rewrite Hin.
  - now destruct (mem String.eqb col_liquidacion
                    (unique String.eqb (columns df ++ flat_map columns rest))).
Qed.

Lemma person_comes_from_the_first_loaded_row_witness :
  person_under_control
    (concat [mkDataFrame [col_paciente] [sample_identifier_row "7-Roe"];
             mkDataFrame [col_liquidacion] [sample_identifier_row "8-Doe"]])
  = None.
Proof.
  apply (person_comes_from_the_first_loaded_row
           (mkDataFrame [col_paciente] [sample_identifier_row "7-Roe"])
           [mkDataFrame [col_liquidacion] [sample_identifier_row "8-Doe"]]
           (sample_identifier_row "7-Roe") []).
  reflexivity.
Defined.
